(** * Camera-trap detection pipeline: [run_tf_detector.py] and [server.py]

    A shallow embedding of the detection-result pipeline of the repository:
    the coordinate conversion, the per-image filtering loop of
    [TFDetector.generate_detections_one_image], the caller
    [load_and_run_detector] and the receive/infer/alert loop of [server.py].

    Numbers.  The scores, thresholds and box coordinates are NumPy / Python
    floats in the source.  They are embedded as exact rationals [Q]: the
    comparisons and the arithmetic are those of the source, binary rounding
    is not modelled; only the module [Rounded] takes the rounding of the
    subtraction and of the addition of the coordinate conversions as a
    parameter.  Class identifiers are the integral values of the
    [detection_classes] tensor and are embedded as [Z], on which Python's
    [int(c)] is the identity. *)

From Stdlib Require Import QArith Qround Qabs Lqa ZArith String DecimalString DecimalZ Lia.
From stdpp Require Import base gmap strings list.

Local Open Scope Q_scope.

(** ** Comparisons on rationals, as booleans *)

(** [a > b] of the source, read as [Qgtb a b]. *)
Definition Qgtb (a b : Q) : bool := negb (Qle_bool a b).

(** ** [ct_utils.truncate_float] *)

(** Modelled from the spec: the truncation that [truncate_float] applies.
    The fractional part of a rational is dropped, towards zero. *)
Definition Qtruncate (x : Q) : Z :=
  if Qle_bool 0 x then Qfloor x else Qceiling x.

(** Modelled from the spec: the scale of [truncate_float], the power of ten
    that shifts [precision] decimal digits in front of the decimal point. *)
Definition factor (precision : Z) : positive := Z.to_pos (10 ^ precision).

(** Modelled from the spec: [truncate_float] is imported from the module
    [ct_utils], which is not part of the sources.  The specification says
    that a value is "truncated toward the configured precision, not
    banker's-rounded" to the given number of decimal digits (4 for box
    coordinates, 3 for confidences): the digits after the [precision]-th
    decimal place are dropped.  The result is kept in lowest terms, so that
    two truncations that denote the same number are the same term. *)
Definition truncate_float (x : Q) (precision : Z) : Q :=
  Qred (Qtruncate (x * inject_Z (Zpos (factor precision))) # factor precision).

(** ** Python exceptions and dictionaries *)

(** The exceptions that the modelled statements can raise.  [BackendError]
    stands for whatever [tf_session.run] raises. *)
Inductive exn : Type :=
| KeyError (key : string)
| IndexError
| TypeError
| BackendError (msg : string).

(** A computation either returns a value or raises. *)
Inductive outcome (A : Type) : Type :=
| Ok (a : A)
| Raise (e : exn).
Arguments Ok {A} a.
Arguments Raise {A} e.

#[global] Instance outcome_ret : MRet outcome := λ A a, Ok a.
#[global] Instance outcome_bind : MBind outcome := λ A B k m,
  match m with
  | Ok a => k a
  | Raise e => Raise e
  end.

(** [d[key]] on a dictionary: [KeyError] when the key is absent. *)
Definition getitem {V : Type} (d : gmap string V) (key : string) : outcome V :=
  match d !! key with
  | Some v => Ok v
  | None => Raise (KeyError key)
  end.

(** [a[i]] on a sequence, for an index [i >= 0]: [IndexError] when [i] is
    out of range. *)
Definition index {A : Type} (a : list A) (i : nat) : outcome A :=
  match a !! i with
  | Some x => Ok x
  | None => Raise IndexError
  end.

(** [str(n)] for a Python integer. *)
Definition str (n : Z) : string := NilZero.string_of_int (Z.to_int n).

(** [int(c)] on an integral class identifier. *)
Definition int (c : Z) : Z := c.

Module TFDetector.

(** Number of decimal places to round to for confidence and bbox
    coordinates. *)
Definition CONF_DIGITS : Z := 3.
Definition COORD_DIGITS : Z := 4.

(** An enumeration of failure reasons. *)
Definition FAILURE_TF_INFER : string := "Failure TF inference".
Definition FAILURE_IMAGE_OPEN : string := "Failure image access".

Definition DEFAULT_RENDERING_CONFIDENCE_THRESHOLD : Q := 0.85.
Definition DEFAULT_OUTPUT_CONFIDENCE_THRESHOLD : Q := 0.1.

(** A row of the [detection_boxes] tensor, [[y1, x1, y2, x2]]; the tensor
    has shape [N x 4], so the four indices of [__convert_coords] are always
    in range. *)
Record tf_box : Type := TfBox { by1 : Q; bx1 : Q; by2 : Q; bx2 : Q }.

Definition round_and_make_float (d : Q) (precision : Z) : Q :=
  truncate_float d precision.

(** [[y1, x1, y2, x2]] to [[x1, y1, width, height]], every entry passed
    through [round_and_make_float]. *)
Definition __convert_coords (tf_coords : tf_box) : list Q :=
  let width := bx2 tf_coords - bx1 tf_coords in
  let height := by2 tf_coords - by1 tf_coords in
  let new := [bx1 tf_coords; by1 tf_coords; width; height] in
  (fun d => round_and_make_float d COORD_DIGITS) <$> new.

(** From [[x1, y1, width, height]] to [[y1, x1, y2, x2]]. *)
Definition convert_to_tf_coords (array : list Q) : outcome (list Q) :=
  x1 ← index array 0;
  y1 ← index array 1;
  width ← index array 2;
  height ← index array 3;
  let x2 := x1 + width in
  let y2 := y1 + height in
  mret [y1; x1; y2; x2].

(** What the three output tensors hold after [tf_session.run]: one entry
    per image of the batch. *)
Record tensors : Type := Tensors {
  box_tensor_out : list (list tf_box);
  score_tensor_out : list (list Q);
  class_tensor_out : list (list Z)
}.

(** A detection object of the output, with its keys ['category'], ['conf']
    and ['bbox']. *)
Record detection_entry : Type := DetectionEntry {
  category : string;
  conf : Q;
  bbox : list Q
}.

(** The local variables that the loop of [generate_detections_one_image]
    updates. *)
Record locals : Type := Locals {
  detections_cur_image : list detection_entry;
  max_detection_conf : Q;
  animal : Z
}.

(** One iteration of [for b, s, c in zip(boxes, scores, classes)]. *)
Definition loop_body (detection_threshold : Q) (st : locals)
    (bsc : tf_box * Q * Z) : locals :=
  let '(b, s, c) := bsc in
  if (c =? 3)%Z then st (* continue *)
  else
    let st1 :=
      if Qgtb s detection_threshold then
        let detection_entry :=
          {| category := str (int c);
             conf := truncate_float s CONF_DIGITS;
             bbox := __convert_coords b |} in
        {| detections_cur_image := detections_cur_image st ++ [detection_entry];
           max_detection_conf :=
             if Qgtb s (max_detection_conf st) then s
             else max_detection_conf st;
           animal := animal st |}
      else st in
    if (int c =? 1)%Z
    then {| detections_cur_image := detections_cur_image st1;
            max_detection_conf := max_detection_conf st1;
            animal := 1 |}
    else st1.

(** The whole loop, from the state in which it is entered. *)
Definition detection_loop (detection_threshold : Q)
    (raw : list (tf_box * Q * Z)) (st : locals) : locals :=
  fold_left (loop_body detection_threshold) raw st.

(** [zip(boxes, scores, classes)]: stops at the shortest of the three. *)
Definition zip3 (boxes : list tf_box) (scores : list Q) (classes : list Z)
    : list (tf_box * Q * Z) :=
  zip (zip boxes scores) classes.

Section Detector.
(** A frame is opaque to the pipeline. *)
Context {Frame : Type}.

(** The values stored in the result dictionary. *)
Inductive pyval : Type :=
| PyImageId (image_id : Frame)
| PyFloat (x : Q)
| PyStr (s : string)
| PyDetections (l : list detection_entry).

(** The loaded model: [self.tf_session.run] on the three output tensors,
    fed with one image. *)
Variable tf_session_run : Frame → outcome tensors.

Definition _generate_detections_one_image (image : Frame) : outcome tensors :=
  tf_session_run image.

(** The body of the [try] block.  The call of the backend and the three
    [[0]] lookups can raise; they all come before the loop, and on integral
    class identifiers and rational scores the loop itself does not raise.
    So when the handler runs, [animal] still has the value it was
    initialised with. *)
Definition try_block (image : Frame) (detection_threshold : Q)
    (animal0 : Z) : outcome locals :=
  out ← _generate_detections_one_image image;
  boxes ← index (box_tensor_out out) 0;
  scores ← index (score_tensor_out out) 0;
  classes ← index (class_tensor_out out) 0;
  mret (detection_loop detection_threshold (zip3 boxes scores classes)
          {| detections_cur_image := [];
             max_detection_conf := 0.0;
             animal := animal0 |}).

Definition generate_detections_one_image (image : Frame) (image_id : Frame)
    (detection_threshold : Q) : gmap string pyval * Z :=
  let animal0 := 0%Z in
  let result : gmap string pyval := {[ "file" := PyImageId image_id ]} in
  match try_block image detection_threshold animal0 with
  | Ok st =>
      let result :=
        <[ "max_detection_conf" :=
             PyFloat (truncate_float (max_detection_conf st) CONF_DIGITS) ]>
          result in
      let result :=
        <[ "detections" := PyDetections (detections_cur_image st) ]> result in
      (result, animal st)
  | Raise e =>
      let result := <[ "failure" := PyStr FAILURE_TF_INFER ]> result in
      (result, animal0)
  end.
End Detector.

End TFDetector.

(** ** The main function of [run_tf_detector.py] and the loop of [server.py] *)

(** What the server does that can be observed from outside. *)
Inductive event {Frame : Type} : Type :=
| SendReply                          (* imageHub.send_reply(b'OK') *)
| ImShow (res : Frame)               (* cv2.imshow("animal_detection", res) *)
| Beep (frequency duration : Z).     (* winsound.Beep(frequency, duration) *)
Arguments event : clear implicits.

(** How a run of the server loop over the frames received so far ends. *)
Inductive loop_end : Type :=
| AwaitFrame             (* blocked in recv_image: no further frame yet *)
| Quit                   (* the key was "q": break *)
| Crashed (e : exn).     (* an exception left the loop *)

Section Pipeline.
Context {Frame : Type}.

(** The detector loaded at module level, [tf_detector]. *)
Variable tf_session_run : Frame → outcome TFDetector.tensors.

(** [viz_utils.render_detection_bounding_boxes], which draws on the image:
    an external collaborator. *)
Variable render_detection_bounding_boxes :
  list TFDetector.detection_entry → Frame → Q → Frame.

(** [imutils.resize(frame, width=...)] followed by [cv2.putText] of the
    source name: external collaborators. *)
Variable resize_and_label : Frame → string → Frame.

Definition load_and_run_detector (image_file : Frame) : outcome (Frame * Z) :=
  let render_confidence_threshold :=
    TFDetector.DEFAULT_RENDERING_CONFIDENCE_THRESHOLD in
  (* image = PIL.Image.fromarray(numpy.uint8(image_file)) *)
  let image := image_file in
  let '(result, flag) :=
    TFDetector.generate_detections_one_image tf_session_run image image_file
      TFDetector.DEFAULT_OUTPUT_CONFIDENCE_THRESHOLD in
  detections ← getitem result "detections";
  match detections with
  | TFDetector.PyDetections l =>
      let im := render_detection_bounding_boxes l image
                  render_confidence_threshold in
      mret (im, flag)
  | _ => Raise TypeError
  end.

(** The decision of the alert dispatcher, [if flag == 1]. *)
Definition should_alert (flag : Z) : bool := (flag =? 1)%Z.

(** [ord("q")]. *)
Definition ord_q : Z := 113.

(** [while True] of [server.py], run on the frames that arrive, each with
    the name of its source and the key that [cv2.waitKey(1)] reads in its
    cycle.  [trace] collects the events so far. *)
Fixpoint server_loop (inputs : list (string * Frame * Z))
    (trace : list (event Frame)) : list (event Frame) * loop_end :=
  match inputs with
  | [] => (trace, AwaitFrame)
  | (rpiName, frame, waitKey) :: inputs =>
      let trace := trace ++ [SendReply] in
      let frame := resize_and_label frame rpiName in
      match load_and_run_detector frame with
      | Raise e => (trace, Crashed e)
      | Ok (res, flag) =>
          let trace := trace ++ [ImShow res] in
          let trace :=
            if should_alert flag then trace ++ [Beep 2500 500] else trace in
          let key := Z.land waitKey 255 in
          if (key =? ord_q)%Z then (trace, Quit)
          else server_loop inputs trace
      end
  end.
End Pipeline.

(** ** Notions used to state the properties *)

Module Spec.
Import TFDetector.

(** The locals on entry to the loop of [generate_detections_one_image]. *)
Definition init_locals : locals :=
  {| detections_cur_image := []; max_detection_conf := 0.0; animal := 0 |}.

(** What the loop leaves in [detections_cur_image], [max_detection_conf]
    and [animal] when it is run on [raw] from the initial locals. *)
Definition detections_of (thr : Q) (raw : list (tf_box * Q * Z))
    : list detection_entry :=
  detections_cur_image (detection_loop thr raw init_locals).
Definition max_conf_of (thr : Q) (raw : list (tf_box * Q * Z)) : Q :=
  max_detection_conf (detection_loop thr raw init_locals).
Definition animal_of (thr : Q) (raw : list (tf_box * Q * Z)) : Z :=
  animal (detection_loop thr raw init_locals).

(** The detection object that the loop builds for a raw detection. *)
Definition detection_entry_of (bsc : tf_box * Q * Z) : detection_entry :=
  let '(b, s, c) := bsc in
  {| category := str (int c);
     conf := truncate_float s CONF_DIGITS;
     bbox := __convert_coords b |}.

(** The backend answers for [image], and the first entries of its three
    tensors zip to the raw detections [raw]. *)
Definition backend_returns {Frame : Type}
    (tf_session_run : Frame → outcome tensors) (image : Frame)
    (raw : list (tf_box * Q * Z)) : Prop :=
  ∃ out boxes scores classes,
    tf_session_run image = Ok out
    ∧ box_tensor_out out !! 0%nat = Some boxes
    ∧ score_tensor_out out !! 0%nat = Some scores
    ∧ class_tensor_out out !! 0%nat = Some classes
    ∧ raw = zip3 boxes scores classes.

(** A session that answers every image with the raw detections [raw]. *)
Definition constant_session {Frame : Type} (raw : list (tf_box * Q * Z))
    : Frame → outcome tensors :=
  λ _, Ok {| box_tensor_out := [raw.*1.*1];
             score_tensor_out := [raw.*1.*2];
             class_tensor_out := [raw.*2] |}.

(** A raw detection passes the two tests of the loop: its class is not the
    excluded one and its score is above the threshold. *)
Definition survives (thr : Q) (bsc : tf_box * Q * Z) : Prop :=
  bsc.2 ≠ 3%Z ∧ thr < bsc.1.2.

#[global] Instance survives_dec thr bsc : Decision (survives thr bsc).
Proof.
  unfold survives. apply and_dec; [apply _|].
  destruct (Qlt_le_dec thr bsc.1.2) as [H|H]; [by left|right].
  by apply Qle_not_lt.
Defined.

(** A box of the data model: coordinates in [[0,1]], [y1 < y2], [x1 < x2]. *)
Definition valid_box (b : tf_box) : Prop :=
  (0 <= by1 b ∧ by1 b <= 1) ∧ (0 <= bx1 b ∧ bx1 b <= 1)
  ∧ (0 <= by2 b ∧ by2 b <= 1) ∧ (0 <= bx2 b ∧ bx2 b <= 1)
  ∧ by1 b < by2 b ∧ bx1 b < bx2 b.

(** Canonical conversion followed by the inverse conversion. *)
Definition round_trip (b : tf_box) : outcome (list Q) :=
  convert_to_tf_coords (__convert_coords b).

(** [back] is a box [[y1, x1, y2, x2]] each of whose components is within
    [tol] of the component of [b]. *)
Definition agrees_within (tol : Q) (b : tf_box) (back : list Q) : Prop :=
  ∃ y1 x1 y2 x2, back = [y1; x1; y2; x2]
    ∧ Qabs (y1 - by1 b) <= tol ∧ Qabs (x1 - bx1 b) <= tol
    ∧ Qabs (y2 - by2 b) <= tol ∧ Qabs (x2 - bx2 b) <= tol.

(** One unit of the fourth decimal place. *)
Definition coord_ulp : Q := 1 # factor COORD_DIGITS.

End Spec.

(** ** A concrete installation, on which the pipeline can be run *)

Module Example.
Import TFDetector.

(** The raw detections of the end-to-end example of the specification. *)
Definition animal_detection : tf_box * Q * Z :=
  (TfBox 0.1 0.2 0.4 0.5, 0.92, 1%Z).
Definition vehicle_detection : tf_box * Q * Z :=
  (TfBox 0 0 1 1, 0.99, 3%Z).
Definition raw_example : list (tf_box * Q * Z) :=
  [ animal_detection; vehicle_detection ].

(** Frames are numbered; the backend raises on frame 0 and answers every
    other frame with [raw_example]. *)
Definition flaky_session (frame : nat) : outcome tensors :=
  match frame with
  | O => Raise (BackendError "inference failed")
  | S _ => Spec.constant_session raw_example frame
  end.

(** Collaborators that leave the frame as it is. *)
Definition render_nothing (l : list detection_entry) (image : nat)
    (confidence_threshold : Q) : nat := image.
Definition keep_frame (frame : nat) (rpiName : string) : nat := frame.

End Example.

(** ** [ImagePathUtils] *)

Module ImagePathUtils.

(** Stick this into filenames before the extension for the rendered
    result. *)
Definition DETECTION_FILENAME_INSERT : string := "_detections".

Definition image_extensions : list string := [".jpg"; ".jpeg"; ".gif"; ".png"].

Section Utils.
(** [os.path.splitext], [str.lower] and [glob.glob] on the pattern built
    from the directory name: library functions, taken as they are. *)
Variable splitext : string → string * string.
Variable lower : string → string.
Variable glob : string → bool → list string.

(** Check a file's extension against a hard-coded set of image file
    extensions. *)
Definition is_image_file (s : string) : bool :=
  let ext := (splitext s).2 in
  bool_decide (lower ext ∈ image_extensions).

(** [[s for s in strings if ImagePathUtils.is_image_file(s)]]. *)
Definition find_image_files (strings : list string) : list string :=
  filter (λ s, is_image_file s) strings.

Definition find_images (dir_name : string) (recursive : bool) : list string :=
  let strings := glob dir_name recursive in
  let image_strings := find_image_files strings in
  image_strings.
End Utils.

End ImagePathUtils.

(** ** The script [video_detect.py] *)

Module VideoDetect.

(** How the script ends. *)
Inductive script_end {Frame : Type} : Type :=
| Written (size : Z * Z) (frames : list Frame)
    (* cv2.VideoWriter(..., 15, size), then out.write of every frame *)
| SizeUndefined
    (* NameError: [size] was never assigned *)
| InferenceError (e : exn).
    (* an exception left load_and_run_detector *)
Arguments script_end : clear implicits.

Section Script.
Context {Frame : Type}.
Variable tf_session_run : Frame → outcome TFDetector.tensors.
Variable render_detection_bounding_boxes :
  list TFDetector.detection_entry → Frame → Q → Frame.

(** [img.shape], unpacked as [height, width, layers]. *)
Variable shape : Frame → Z * Z * Z.

(** [while count != 1000] on the frames that [vidObj.read()] still
    delivers; when they run out, [success] is false and the loop breaks. *)
Fixpoint read_loop (video : list Frame) (count : nat)
    (img_array : list Frame) (size : option (Z * Z))
    : outcome (list Frame * option (Z * Z)) :=
  if (count =? 1000)%nat then Ok (img_array, size)
  else
    match video with
    | [] => Ok (img_array, size) (* break *)
    | image :: video =>
        match load_and_run_detector tf_session_run
                render_detection_bounding_boxes image with
        | Raise e => Raise e
        | Ok (im, flag) =>
            let img := im in
            let '(height, width, layers) := shape img in
            let size := Some (width, height) in
            read_loop video (S count) (img_array ++ [img]) size
        end
    end.

Definition video_detect (video : list Frame) : script_end Frame :=
  match read_loop video 0 [] None with
  | Raise e => InferenceError e
  | Ok (img_array, None) => SizeUndefined
  | Ok (img_array, Some size) => Written size img_array
  end.
End Script.

End VideoDetect.

(** ** Counting the events of a trace *)

Module Trace.

Definition is_reply {Frame : Type} (ev : event Frame) : bool :=
  match ev with SendReply => true | _ => false end.
Definition is_shown {Frame : Type} (ev : event Frame) : bool :=
  match ev with ImShow _ => true | _ => false end.
Definition is_beep {Frame : Type} (ev : event Frame) : bool :=
  match ev with Beep _ _ => true | _ => false end.

Definition replies {Frame : Type} (trace : list (event Frame)) : nat :=
  length (filter (λ ev, is_reply ev) trace).
Definition shown {Frame : Type} (trace : list (event Frame)) : nat :=
  length (filter (λ ev, is_shown ev) trace).
Definition beeps {Frame : Type} (trace : list (event Frame)) : nat :=
  length (filter (λ ev, is_beep ev) trace).

End Trace.

(** ** Further concrete inputs *)

Module MoreExamples.
Import TFDetector.

(** A backend whose tensors have an empty batch. *)
Definition empty_batch_session (frame : nat) : outcome tensors :=
  Ok {| box_tensor_out := []; score_tensor_out := []; class_tensor_out := [] |}.

(** A backend that returns two boxes and two classes but one score. *)
Definition ragged_session (frame : nat) : outcome tensors :=
  Ok {| box_tensor_out := [[TfBox 0.1 0.2 0.4 0.5; TfBox 0 0 1 1]];
        score_tensor_out := [[0.92]];
        class_tensor_out := [[1%Z; 2%Z]] |}.

(** Every frame is 640 wide and 480 high, with three layers. *)
Definition vga_shape (img : nat) : Z * Z * Z := (480%Z, 640%Z, 3%Z).

End MoreExamples.

(** ** The conversions with the rounding of floating-point arithmetic *)

(** The coordinates are floats in the source, so the subtraction of
    [__convert_coords] and the addition of [convert_to_tf_coords] return the
    exact result rounded to the float format of their operands.  [Rounded]
    gives the two conversions with that rounding as a parameter [fl]; with
    the identity for [fl] they are the exact conversions of [TFDetector]. *)
Module Rounded.
Import TFDetector.

Definition __convert_coords (fl : Q → Q) (tf_coords : tf_box) : list Q :=
  let width := fl (bx2 tf_coords - bx1 tf_coords) in
  let height := fl (by2 tf_coords - by1 tf_coords) in
  let new := [bx1 tf_coords; by1 tf_coords; width; height] in
  (fun d => round_and_make_float d COORD_DIGITS) <$> new.

Definition convert_to_tf_coords (fl : Q → Q) (array : list Q)
    : outcome (list Q) :=
  x1 ← index array 0;
  y1 ← index array 1;
  width ← index array 2;
  height ← index array 3;
  let x2 := fl (x1 + width) in
  let y2 := fl (y1 + height) in
  mret [y1; x1; y2; x2].

(** Canonical conversion followed by the inverse conversion: [fl_sub] rounds
    the subtractions of the first, [fl_add] the additions of the second. *)
Definition round_trip (fl_sub fl_add : Q → Q) (b : tf_box)
    : outcome (list Q) :=
  convert_to_tf_coords fl_add (__convert_coords fl_sub b).

(** What is used of a rounding: on results between 0 and 2 it is off by at
    most [u], and it does not make a non-negative result negative.  The
    rounding to nearest of IEEE arithmetic is such a rounding, with [u]
    half the spacing of the format below 2 (2^-24 for single precision,
    2^-53 for double precision). *)
Record rounding (u : Q) (fl : Q → Q) : Prop := Rounding {
  rounding_error : ∀ x, 0 <= x → x <= 2 → Qabs (fl x - x) <= u;
  rounding_sign : ∀ x, 0 <= x → 0 <= fl x
}.

(** A rounding to compute with: to the nearest multiple of 2^-24. *)
Definition fixed_rounding (x : Q) : Q :=
  Qfloor (x * 16777216 + (1 # 2)) # 16777216.

End Rounded.

(** ** Facts about truncation *)

Section TruncateFacts.

Lemma Qgtb_true (a b : Q) : Qgtb a b = true ↔ b < a.
Proof.
  unfold Qgtb. rewrite negb_true_iff. split.
  - intros H. apply Qnot_le_lt. intros Hle.
    apply Qle_bool_iff in Hle. congruence.
  - intros H. destruct (Qle_bool a b) eqn:E; [|done].
    apply Qle_bool_iff in E. exfalso. exact (Qlt_not_le _ _ H E).
Qed.

Lemma Qgtb_false (a b : Q) : Qgtb a b = false ↔ a <= b.
Proof.
  unfold Qgtb. rewrite negb_false_iff. apply Qle_bool_iff.
Qed.

Lemma Qle_bool_false (a b : Q) : Qle_bool a b = false ↔ b < a.
Proof.
  rewrite <- (Qgtb_true a b). unfold Qgtb. by rewrite negb_true_iff.
Qed.

Lemma Qtruncate_nonneg (x : Q) : 0 <= x → Qtruncate x = Qfloor x.
Proof. intros H. unfold Qtruncate. apply Qle_bool_iff in H. by rewrite H. Qed.

Lemma Qtruncate_neg (x : Q) : x < 0 → Qtruncate x = Qceiling x.
Proof. intros H. unfold Qtruncate. apply Qle_bool_false in H. by rewrite H. Qed.

Lemma Qtruncate_comp (x y : Q) : x == y → Qtruncate x = Qtruncate y.
Proof.
  intros E. destruct (Qlt_le_dec x 0) as [Hx|Hx].
  - rewrite !Qtruncate_neg; [by apply Qceiling_comp| |done].
    by rewrite <- E.
  - rewrite !Qtruncate_nonneg; [by apply Qfloor_comp| |done].
    by rewrite <- E.
Qed.

Lemma Qtruncate_resp_le (x y : Q) : x <= y → (Qtruncate x <= Qtruncate y)%Z.
Proof.
  intros Hxy.
  destruct (Qlt_le_dec x 0) as [Hx|Hx]; destruct (Qlt_le_dec y 0) as [Hy|Hy].
  - rewrite !Qtruncate_neg by done. by apply Qceiling_resp_le.
  - rewrite Qtruncate_neg, Qtruncate_nonneg by done.
    transitivity 0%Z.
    + change 0%Z with (Qceiling 0). apply Qceiling_resp_le. by apply Qlt_le_weak.
    + change 0%Z with (Qfloor 0). by apply Qfloor_resp_le.
  - exfalso. lra.
  - rewrite !Qtruncate_nonneg by lra. by apply Qfloor_resp_le.
Qed.

(** Truncation moves a value towards zero, by less than one. *)
Lemma Qtruncate_bounds_nonneg (x : Q) :
  0 <= x →
  0 <= inject_Z (Qtruncate x) ∧ inject_Z (Qtruncate x) <= x
  ∧ x < inject_Z (Qtruncate x) + 1.
Proof.
  intros H. rewrite Qtruncate_nonneg by done. repeat split.
  - change 0 with (inject_Z 0). rewrite <- Zle_Qle.
    change 0%Z with (Qfloor 0). by apply Qfloor_resp_le.
  - apply Qfloor_le.
  - pose proof (Qlt_floor x) as L. by rewrite inject_Z_plus in L.
Qed.


Variable p : Z.
Local Abbreviation F := (inject_Z (Zpos (factor p))).

Lemma factor_pos : 0 < F.
Proof. reflexivity. Qed.

Lemma truncate_float_scaled (x : Q) :
  truncate_float x p * F == inject_Z (Qtruncate (x * F)).
Proof.
  unfold truncate_float. rewrite Qred_correct, Qmake_Qdiv. field.
  intros E. discriminate E.
Qed.

Lemma ulp_scaled : (1 # factor p) * F == 1.
Proof. rewrite Qmake_Qdiv. field. intros E. discriminate E. Qed.

(** The truncation of equal numbers is the same term. *)
Lemma truncate_float_comp (x y : Q) :
  x == y → truncate_float x p = truncate_float y p.
Proof.
  intros E. unfold truncate_float. f_equal. f_equal.
  apply Qtruncate_comp. by rewrite E.
Qed.

Lemma truncate_float_resp_le (x y : Q) :
  x <= y → truncate_float x p <= truncate_float y p.
Proof.
  intros H. apply (Qmult_le_r _ _ F factor_pos).
  rewrite !truncate_float_scaled, <- Zle_Qle.
  apply Qtruncate_resp_le. by apply Qmult_le_compat_r; [|apply Qlt_le_weak, factor_pos].
Qed.

Lemma truncate_float_bounds_nonneg (x : Q) :
  0 <= x →
  0 <= truncate_float x p ∧ truncate_float x p <= x
  ∧ x - truncate_float x p < 1 # factor p.
Proof.
  intros H.
  assert (HF : 0 <= x * F) by (apply Qmult_le_0_compat; [done|apply Qlt_le_weak, factor_pos]).
  destruct (Qtruncate_bounds_nonneg _ HF) as (H0 & H1 & H2).
  rewrite <- truncate_float_scaled in H0, H1, H2.
  repeat split.
  - apply (Qmult_le_r _ _ F factor_pos). by rewrite Qmult_0_l.
  - by apply (Qmult_le_r _ _ F factor_pos).
  - apply (Qmult_lt_r _ _ F factor_pos). rewrite ulp_scaled.
    assert (E : (x - truncate_float x p) * F == x * F - truncate_float x p * F) by ring.
    rewrite E. lra.
Qed.



End TruncateFacts.

(** ** The coordinate normalizer *)

Section CoordinateProperties.
Import TFDetector Spec.

(** The inverse conversion applied to a converted box, written out. *)
Lemma round_trip_eq (b : tf_box) :
  round_trip b =
    Ok [truncate_float (by1 b) COORD_DIGITS;
        truncate_float (bx1 b) COORD_DIGITS;
        truncate_float (by1 b) COORD_DIGITS
          + truncate_float (by2 b - by1 b) COORD_DIGITS;
        truncate_float (bx1 b) COORD_DIGITS
          + truncate_float (bx2 b - bx1 b) COORD_DIGITS].
Proof. reflexivity. Qed.


(** C7, as stated, fails.  The box [[0.12349, 0.2, 0.56788, 0.5]] is valid,
    and its round trip returns [y2 = 0.1234 + 0.4443 = 0.5677], which is
    0.00018 below the original 0.56788: more than one unit of the fourth
    decimal place. *)
Lemma round_trip_counterexample :
  let b := TfBox 0.12349 0.2 0.56788 0.5 in
  valid_box b
  ∧ (∃ y1 x1 y2 x2, round_trip b = Ok [y1; x1; y2; x2]
       ∧ y2 == 0.5677 ∧ by2 b - y2 == 0.00018)
  ∧ ¬ (∃ back, round_trip b = Ok back ∧ agrees_within coord_ulp b back).
Proof.
  intros b. split; [|split].
  - unfold valid_box, b; cbn. repeat split; by vm_compute.
  - do 4 eexists. split; [apply round_trip_eq|]. split; by vm_compute.
  - intros (back & E & (y1 & x1 & y2 & x2 & -> & _ & _ & H & _)).
    rewrite round_trip_eq in E. injection E as _ _ <- _.
    apply Qle_bool_iff in H. vm_compute in H. discriminate H.
Qed.

(** The rounding to the nearest multiple of 2^-24 is off by at most 2^-25
    and keeps the sign. *)
Lemma fixed_rounding_rounds :
  Rounded.rounding (1 # 33554432) Rounded.fixed_rounding.
Proof.
  assert (B : ∀ x, (-1 # 33554432) <= Rounded.fixed_rounding x - x
                   ∧ Rounded.fixed_rounding x - x <= 1 # 33554432).
  { intros x. unfold Rounded.fixed_rounding.
    pose proof (Qfloor_le (x * 16777216 + (1 # 2))) as H1.
    pose proof (Qlt_floor (x * 16777216 + (1 # 2))) as H2.
    rewrite inject_Z_plus in H2. revert H1 H2.
    generalize (Qfloor (x * 16777216 + (1 # 2))). intros f H1 H2.
    assert (E : (f # 16777216) * 16777216 == inject_Z f).
    { rewrite Qmake_Qdiv. field. }
    revert E. generalize (f # 16777216). intros q E.
    change (inject_Z 1) with 1 in H2. split; lra. }
  split.
  - intros x _ _. apply Qabs_Qle_condition. apply B.
  - intros x Hx. unfold Rounded.fixed_rounding.
    assert (0 <= Qfloor (x * 16777216 + (1 # 2)))%Z.
    { change 0%Z with (Qfloor 0). apply Qfloor_resp_le. lra. }
    unfold Qle. cbn [Qnum Qden]. lia.
Qed.

(** A rounded result is not negative and within [u] of the exact one. *)
Lemma rounding_bounds u fl x :
  Rounded.rounding u fl → 0 <= x → x <= 2 →
  0 <= fl x ∧ x - u <= fl x ∧ fl x <= x + u.
Proof.
  intros [He Hs] H0 H2. split; [by apply Hs|].
  specialize (He x H0 H2). apply Qabs_Qle_condition in He. lra.
Qed.

(** The round trip with roundings, written out. *)
Lemma rounded_round_trip_eq fl_sub fl_add (b : tf_box) :
  Rounded.round_trip fl_sub fl_add b =
    Ok [truncate_float (by1 b) COORD_DIGITS;
        truncate_float (bx1 b) COORD_DIGITS;
        fl_add (truncate_float (by1 b) COORD_DIGITS
                + truncate_float (fl_sub (by2 b - by1 b)) COORD_DIGITS);
        fl_add (truncate_float (bx1 b) COORD_DIGITS
                + truncate_float (fl_sub (bx2 b - bx1 b)) COORD_DIGITS)].
Proof. reflexivity. Qed.

(** Without rounding, the conversions of [Rounded] are the exact ones. *)
Lemma rounded_exact (b : tf_box) :
  Rounded.__convert_coords (λ x, x) b = __convert_coords b
  ∧ Rounded.round_trip (λ x, x) (λ x, x) b = round_trip b.
Proof. done. Qed.

(** With rounding the round trip can come back above the original: here
    the rounded width is 0.25, above the exact 0.249999999, and [x2] comes
    back as 0.5, above the original 0.499999999. *)
Lemma rounded_round_trip_can_exceed :
  valid_box (TfBox 0 0.25 1 0.499999999)
  ∧ ∃ y1 x1 y2 x2,
      Rounded.round_trip Rounded.fixed_rounding Rounded.fixed_rounding
        (TfBox 0 0.25 1 0.499999999) = Ok [y1; x1; y2; x2]
      ∧ x2 == 0.5 ∧ 0.499999999 < x2.
Proof.
  split.
  - unfold valid_box; cbn. repeat split; by vm_compute.
  - do 4 eexists. split; [apply rounded_round_trip_eq|].
    split; by vm_compute.
Qed.

(** C7, amended.  For every valid box the round trip
    [convert_to_tf_coords(__convert_coords(b))], computed with floating-point
    subtractions and additions that are each off by at most [u], returns a
    box whose [y1] and [x1] are not above the original and less than one
    ten-thousandth below it, and whose [y2] and [x2] are less than two
    ten-thousandths plus [2 u] below the original (the truncations of the
    corner and of the extent add up) and at most [2 u] above it. *)
Theorem round_trip_within_two_ulps_and_roundings
    u fl_sub fl_add (b : tf_box) :
  u <= 1 →
  Rounded.rounding u fl_sub →
  Rounded.rounding u fl_add →
  valid_box b →
  ∃ y1 x1 y2 x2,
    Rounded.round_trip fl_sub fl_add b = Ok [y1; x1; y2; x2]
    ∧ (y1 <= by1 b ∧ by1 b - y1 < coord_ulp)
    ∧ (x1 <= bx1 b ∧ bx1 b - x1 < coord_ulp)
    ∧ (y2 <= by2 b + 2 * u ∧ by2 b - y2 < 2 * coord_ulp + 2 * u)
    ∧ (x2 <= bx2 b + 2 * u ∧ bx2 b - x2 < 2 * coord_ulp + 2 * u).
Proof.
  intros Hu Rs Ra ((Hy1 & _) & (Hx1 & _) & (_ & Hy2) & (_ & Hx2) & Hy & Hx).
  do 4 eexists. split; [apply rounded_round_trip_eq|].
  destruct (truncate_float_bounds_nonneg COORD_DIGITS (by1 b))
    as (A0 & A1 & A2); [done|].
  destruct (truncate_float_bounds_nonneg COORD_DIGITS (bx1 b))
    as (B0 & B1 & B2); [done|].
  destruct (rounding_bounds u fl_sub (by2 b - by1 b) Rs)
    as (S0 & S1 & S2); [lra..|].
  destruct (rounding_bounds u fl_sub (bx2 b - bx1 b) Rs)
    as (T0 & T1 & T2); [lra..|].
  destruct (truncate_float_bounds_nonneg COORD_DIGITS
              (fl_sub (by2 b - by1 b))) as (C0 & C1 & C2); [done|].
  destruct (truncate_float_bounds_nonneg COORD_DIGITS
              (fl_sub (bx2 b - bx1 b))) as (D0 & D1 & D2); [done|].
  destruct (rounding_bounds u fl_add
              (truncate_float (by1 b) COORD_DIGITS
               + truncate_float (fl_sub (by2 b - by1 b)) COORD_DIGITS) Ra)
    as (_ & P1 & P2); [lra..|].
  destruct (rounding_bounds u fl_add
              (truncate_float (bx1 b) COORD_DIGITS
               + truncate_float (fl_sub (bx2 b - bx1 b)) COORD_DIGITS) Ra)
    as (_ & R1 & R2); [lra..|].
  unfold coord_ulp. repeat split; lra.
Qed.

Lemma round_trip_within_two_ulps_and_roundings_witness :
  (1 # 33554432) <= 1
  ∧ Rounded.rounding (1 # 33554432) Rounded.fixed_rounding
  ∧ valid_box (TfBox 0.12349 0.2 0.56788 0.5)
  ∧ ∃ y1 x1 y2 x2,
      Rounded.round_trip Rounded.fixed_rounding Rounded.fixed_rounding
        (TfBox 0.12349 0.2 0.56788 0.5) = Ok [y1; x1; y2; x2]
      ∧ (y1 <= 0.12349 ∧ 0.12349 - y1 < coord_ulp)
      ∧ (x1 <= 0.2 ∧ 0.2 - x1 < coord_ulp)
      ∧ (y2 <= 0.56788 + 2 * (1 # 33554432)
         ∧ 0.56788 - y2 < 2 * coord_ulp + 2 * (1 # 33554432))
      ∧ (x2 <= 0.5 + 2 * (1 # 33554432)
         ∧ 0.5 - x2 < 2 * coord_ulp + 2 * (1 # 33554432)).
Proof.
  assert (U : (1 # 33554432) <= 1) by (by vm_compute).
  assert (V : valid_box (TfBox 0.12349 0.2 0.56788 0.5)).
  { unfold valid_box; cbn. repeat split; by vm_compute. }
  split; [exact U|]. split; [exact fixed_rounding_rounds|]. split; [exact V|].
  exact (round_trip_within_two_ulps_and_roundings _ _ _ _
           U fixed_rounding_rounds fixed_rounding_rounds V).
Defined.

End CoordinateProperties.

(** ** The loop of [generate_detections_one_image] *)

Section LoopFacts.
Import TFDetector Spec.
Implicit Types (st : locals) (raw : list (tf_box * Q * Z)) (thr s : Q) (c : Z).

Lemma loop_body_excluded thr st b s : loop_body thr st (b, s, 3%Z) = st.
Proof. reflexivity. Qed.

Lemma loop_body_detections thr st bsc :
  detections_cur_image (loop_body thr st bsc) =
    detections_cur_image st
      ++ (if decide (survives thr bsc) then [detection_entry_of bsc] else []).
Proof.
  destruct bsc as [[b s] c]. unfold loop_body, survives, int. cbn [fst snd].
  destruct (Z.eqb_spec c 3) as [->|Hc].
  { rewrite decide_False by (by intros [? _]). by rewrite app_nil_r. }
  destruct (Qgtb s thr) eqn:Hs.
  - apply Qgtb_true in Hs. rewrite decide_True by done.
    by destruct (c =? 1)%Z.
  - apply Qgtb_false in Hs.
    rewrite decide_False by (intros [_ ?]; by apply (Qle_not_lt _ _ Hs)).
    rewrite app_nil_r. by destruct (c =? 1)%Z.
Qed.

Lemma loop_body_animal thr st b s c :
  animal (loop_body thr st (b, s, c)) = if decide (c = 1%Z) then 1%Z else animal st.
Proof.
  unfold loop_body, int. destruct (Z.eqb_spec c 3) as [->|Hc]; [done|].
  destruct (Z.eqb_spec c 1) as [->|H1].
  - by rewrite decide_True.
  - rewrite decide_False by done. by destruct (Qgtb s thr).
Qed.

Lemma loop_body_max thr st bsc :
  max_detection_conf (loop_body thr st bsc) =
    if decide (survives thr bsc)
    then (if Qgtb bsc.1.2 (max_detection_conf st) then bsc.1.2
          else max_detection_conf st)
    else max_detection_conf st.
Proof.
  destruct bsc as [[b s] c]. unfold loop_body, survives, int. cbn [fst snd].
  destruct (Z.eqb_spec c 3) as [->|Hc].
  { by rewrite decide_False by (by intros [? _]). }
  destruct (Qgtb s thr) eqn:Hs.
  - apply Qgtb_true in Hs. rewrite decide_True by done.
    by destruct (c =? 1)%Z.
  - apply Qgtb_false in Hs.
    rewrite decide_False by (intros [_ ?]; by apply (Qle_not_lt _ _ Hs)).
    by destruct (c =? 1)%Z.
Qed.

Lemma detection_loop_cons thr bsc raw st :
  detection_loop thr (bsc :: raw) st = detection_loop thr raw (loop_body thr st bsc).
Proof. reflexivity. Qed.

Lemma detection_loop_app thr raw1 raw2 st :
  detection_loop thr (raw1 ++ raw2) st
  = detection_loop thr raw2 (detection_loop thr raw1 st).
Proof. apply fold_left_app. Qed.

(** The detections that the loop leaves are those it found on entry,
    followed by the entries of the raw detections that survive, in order. *)
Lemma detection_loop_detections thr raw st :
  detections_cur_image (detection_loop thr raw st) =
    detections_cur_image st ++ (detection_entry_of <$> filter (survives thr) raw).
Proof.
  revert st. induction raw as [|bsc raw IH]; intros st.
  - by rewrite app_nil_r.
  - rewrite detection_loop_cons, IH, loop_body_detections, filter_cons.
    destruct (decide (survives thr bsc)); [|by rewrite app_nil_r].
    by rewrite <- app_assoc.
Qed.

(** The flag is raised by the first raw detection of class 1 and never
    lowered. *)
Lemma detection_loop_animal thr raw st :
  animal (detection_loop thr raw st) =
    if decide (Exists (λ bsc, bsc.2 = 1%Z) raw) then 1%Z else animal st.
Proof.
  revert st. induction raw as [|[[b s] c] raw IH]; intros st.
  - rewrite decide_False; [done|]. by intros H%Exists_nil.
  - rewrite detection_loop_cons, IH, loop_body_animal.
    destruct (decide (Exists (λ bsc, bsc.2 = 1%Z) raw)) as [H|Hn].
    + rewrite decide_True; [done|]. by right.
    + destruct (decide (c = 1%Z)) as [->|Hc].
      * rewrite decide_True; [done|]. by left.
      * rewrite decide_False; [done|]. by intros [?|?]%Exists_cons.
Qed.

(** What the loop maintains about [max_detection_conf]: it never decreases,
    it bounds the score of every survivor, and it is either the value on
    entry or the score of a survivor. *)
Lemma detection_loop_max thr raw st :
  let m := max_detection_conf (detection_loop thr raw st) in
  max_detection_conf st <= m
  ∧ (∀ bsc, bsc ∈ filter (survives thr) raw → bsc.1.2 <= m)
  ∧ (m = max_detection_conf st
     ∨ ∃ bsc, bsc ∈ filter (survives thr) raw ∧ m = bsc.1.2).
Proof.
  revert st. induction raw as [|bsc raw IH]; intros st; cbn zeta.
  - split; [apply Qle_refl|]. split; [|by left].
    intros bsc H. by apply elem_of_nil in H.
  - rewrite detection_loop_cons.
    destruct (IH (loop_body thr st bsc)) as (I1 & I2 & I3).
    rewrite loop_body_max in I1, I3. rewrite filter_cons.
    destruct (decide (survives thr bsc)) as [Hs|Hs].
    + destruct (Qgtb bsc.1.2 (max_detection_conf st)) eqn:G.
      * apply Qgtb_true in G. split; [lra|]. split.
        -- intros x [->|Hx]%elem_of_cons; [done|by apply I2].
        -- right. destruct I3 as [->|(x & Hx & ->)].
           ++ exists bsc. split; [by left|done].
           ++ exists x. split; [by right|done].
      * apply Qgtb_false in G. split; [done|]. split.
        -- intros x [->|Hx]%elem_of_cons; [lra|by apply I2].
        -- destruct I3 as [->|(x & Hx & ->)]; [by left|].
           right. exists x. split; [by right|done].
    + done.
Qed.

End LoopFacts.

(** ** [generate_detections_one_image] *)

Section DetectorProperties.
Import TFDetector Spec.
Context {Frame : Type}.
Implicit Types (run : Frame → outcome tensors) (image image_id : Frame).
Implicit Types (raw : list (tf_box * Q * Z)) (thr s : Q) (c : Z).

Lemma try_block_returns run image raw thr a :
  backend_returns run image raw →
  try_block run image thr a =
    Ok (detection_loop thr raw
          {| detections_cur_image := []; max_detection_conf := 0.0; animal := a |}).
Proof.
  intros (out & boxes & scores & classes & E & Hb & Hs & Hc & ->).
  unfold try_block, _generate_detections_one_image, index.
  rewrite E. cbn. rewrite Hb. cbn. rewrite Hs. cbn. by rewrite Hc.
Qed.

(** The success path: the result holds the file, the truncated maximum and
    the detections of the loop; the flag is the [animal] of the loop. *)
Lemma generate_detections_success run image image_id raw thr :
  backend_returns run image raw →
  generate_detections_one_image run image image_id thr =
    (<[ "detections" := PyDetections (detections_of thr raw) ]>
       (<[ "max_detection_conf" :=
             PyFloat (truncate_float (max_conf_of thr raw) CONF_DIGITS) ]>
          {[ "file" := PyImageId image_id ]}),
     animal_of thr raw).
Proof.
  intros H. unfold generate_detections_one_image.
  by rewrite (try_block_returns _ _ _ _ _ H).
Qed.

(** The failure path: the exception of the backend is caught, the result
    holds the file and the failure tag, and the flag is 0. *)
Lemma generate_detections_failure run image image_id thr e :
  run image = Raise e →
  generate_detections_one_image run image image_id thr =
    (<[ "failure" := PyStr FAILURE_TF_INFER ]> {[ "file" := PyImageId image_id ]},
     0%Z).
Proof.
  intros H. unfold generate_detections_one_image, try_block,
    _generate_detections_one_image. by rewrite H.
Qed.

Lemma constant_session_returns raw image :
  backend_returns (constant_session (Frame:=Frame) raw) image raw.
Proof.
  exists {| box_tensor_out := [raw.*1.*1]; score_tensor_out := [raw.*1.*2];
            class_tensor_out := [raw.*2] |}, raw.*1.*1, raw.*1.*2, raw.*2.
  repeat split. unfold zip3. by rewrite !zip_fst_snd.
Qed.

Lemma detections_of_eq thr raw :
  detections_of thr raw = detection_entry_of <$> filter (survives thr) raw.
Proof. unfold detections_of. by rewrite detection_loop_detections. Qed.

Lemma lookup_detections (r : gmap string (pyval (Frame:=Frame))) l :
  (<[ "detections" := PyDetections l ]> r) !! "detections" = Some (PyDetections l).
Proof. apply lookup_insert_eq. Qed.

Lemma str_inj (c c' : Z) : str c = str c' → c = c'.
Proof.
  assert (R : ∀ z, NilZero.int_of_string (str z) = Some (Z.to_int z)).
  { intros z. unfold str. apply NilZero.isi; intros E;
      pose proof (f_equal Z.of_int E) as E'; rewrite DecimalZ.of_to in E';
      subst z; vm_compute in E; discriminate E. }
  intros E. apply DecimalZ.to_int_inj.
  pose proof (R c) as Rc. rewrite E, R in Rc. by injection Rc.
Qed.


(** C3.  A raw detection [(b, s, c)] of a class other than 3, wherever it
    stands among the raw detections, contributes its entry to the output
    list, at its place, if and only if [s] is strictly above the threshold:
    with [thr < s] the output is the output of what precedes it, its entry,
    and the output of what follows it; otherwise the output is just the
    outputs of what precedes and what follows.  In particular a score equal
    to the threshold is excluded and a score [thr + ε] with [ε > 0] is
    included. *)
Theorem threshold_is_exclusive run image image_id thr pre post b s c :
  c ≠ 3%Z →
  backend_returns run image (pre ++ (b, s, c) :: post) →
  ∃ dets,
    (generate_detections_one_image run image image_id thr).1 !! "detections"
      = Some (PyDetections dets)
    ∧ (thr < s →
       dets = detections_of thr pre
                ++ detection_entry_of (b, s, c) :: detections_of thr post)
    ∧ (¬ thr < s → dets = detections_of thr pre ++ detections_of thr post)
    ∧ (s == thr → dets = detections_of thr pre ++ detections_of thr post)
    ∧ (∀ ε, 0 < ε → s == thr + ε →
       dets = detections_of thr pre
                ++ detection_entry_of (b, s, c) :: detections_of thr post).
Proof.
  intros Hc H. eexists. rewrite (generate_detections_success _ _ _ _ _ H).
  split; [apply lookup_detections|].
  rewrite !detections_of_eq, filter_app, filter_cons, fmap_app.
  assert (Hn : ¬ thr < s → ¬ survives thr (b, s, c)) by (by intros ? [_ ?]).
  assert (Hy : thr < s → survives thr (b, s, c)) by (by intros ?; split).
  repeat split.
  - intros Hs. by rewrite decide_True by auto.
  - intros Hs. by rewrite decide_False by auto.
  - intros E. rewrite decide_False; [done|]. apply Hn. rewrite E. apply Qlt_irrefl.
  - intros ε Hε E. rewrite decide_True; [done|]. apply Hy. rewrite E. lra.
Qed.

(** C4.  The flag returned by [generate_detections_one_image] is 1 if and
    only if some raw detection has class 1, and is 0 otherwise, whatever the
    threshold: a class-1 detection whose score does not exceed the threshold
    still sets it. *)
Theorem animal_flag_ignores_threshold run image image_id thr raw :
  backend_returns run image raw →
  let flag := (generate_detections_one_image run image image_id thr).2 in
  (flag = 1%Z ↔ ∃ b s, (b, s, 1%Z) ∈ raw)
  ∧ (flag ≠ 1%Z → flag = 0%Z)
  ∧ (∀ b s, (b, s, 1%Z) ∈ raw → s <= thr → flag = 1%Z).
Proof.
  intros H flag. unfold flag.
  rewrite (generate_detections_success _ _ _ _ _ H). cbn [snd].
  unfold animal_of. rewrite detection_loop_animal.
  assert (X : Exists (λ bsc : tf_box * Q * Z, bsc.2 = 1%Z) raw
              ↔ ∃ b s, (b, s, 1%Z) ∈ raw).
  { rewrite Exists_exists. split.
    - intros ([[b s] c] & Hin & E). cbn in E. subst c. eauto.
    - intros (b & s & Hin). by exists (b, s, 1%Z). }
  destruct (decide (Exists (λ bsc : tf_box * Q * Z, bsc.2 = 1%Z) raw)) as [E|E].
  - split; [by rewrite <- X|]. done.
  - rewrite <- X. split; [split; [done|by intros ?]|]. split; [done|].
    intros b s Hin _. exfalso. apply E, X. eauto.
Qed.

(** C5.  A raw detection of class 3 contributes nothing: with it or without
    it among the raw detections, whatever its score and the threshold,
    [generate_detections_one_image] returns the same result (the same
    detections and the same maximum confidence) and the same flag; and no
    detection of the result has the category "3". *)
Theorem excluded_class_contributes_nothing
    run run' image image' image_id thr pre post b s :
  backend_returns run image (pre ++ (b, s, 3%Z) :: post) →
  backend_returns run' image' (pre ++ post) →
  generate_detections_one_image run image image_id thr
    = generate_detections_one_image run' image' image_id thr
  ∧ ∃ dets,
      (generate_detections_one_image run image image_id thr).1 !! "detections"
        = Some (PyDetections dets)
      ∧ ∀ d, d ∈ dets → category d ≠ "3".
Proof.
  intros H H'.
  rewrite (generate_detections_success _ _ _ _ _ H),
    (generate_detections_success _ _ _ _ _ H').
  assert (L : ∀ st, detection_loop thr (pre ++ (b, s, 3%Z) :: post) st
                    = detection_loop thr (pre ++ post) st).
  { intros st. by rewrite !detection_loop_app, detection_loop_cons,
      loop_body_excluded. }
  split.
  - unfold detections_of, max_conf_of, animal_of. by rewrite !L.
  - eexists. split; [apply lookup_detections|].
    intros d. rewrite detections_of_eq.
    intros ([[b' s'] c'] & -> & [Hc _]%list_elem_of_filter)%list_elem_of_fmap.
    cbn in *. intros E. apply Hc. by apply str_inj.
Qed.

(** C6.  In a successfully built result the maximum confidence is never
    negative and is 0 when the list of detections is empty; when the list is
    not empty it is the maximum of the confidences of the detections (it
    bounds all of them and is one of them).  The last part is for scores of
    the data model, which are not negative, or for a threshold that is not
    negative. *)
Theorem max_confidence_is_maximum run image image_id thr raw :
  backend_returns run image raw →
  ∃ dets m,
    (generate_detections_one_image run image image_id thr).1 !! "detections"
      = Some (PyDetections dets)
    ∧ (generate_detections_one_image run image image_id thr).1
        !! "max_detection_conf" = Some (PyFloat m)
    ∧ 0 <= m
    ∧ (dets = [] → m = 0)
    ∧ ((0 <= thr ∨ ∀ bsc, bsc ∈ raw → 0 <= bsc.1.2) →
       dets ≠ [] →
       (∀ d, d ∈ dets → conf d <= m) ∧ ∃ d, d ∈ dets ∧ conf d = m).
Proof.
  intros H. do 2 eexists.
  rewrite (generate_detections_success _ _ _ _ _ H). cbn [fst].
  split; [apply lookup_detections|].
  split; [by rewrite lookup_insert_ne, lookup_insert_eq|].
  destruct (detection_loop_max thr raw init_locals) as (M1 & M2 & M3).
  fold (max_conf_of thr raw) in M1, M2, M3. cbn in M1.
  rewrite detections_of_eq.
  split.
  { destruct (truncate_float_bounds_nonneg CONF_DIGITS (max_conf_of thr raw))
      as (? & _); [lra|done]. }
  split.
  { intros E%fmap_nil_inv. rewrite E in M3.
    destruct M3 as [->|(x & Hx%elem_of_nil & _)]; [by vm_compute|done]. }
  intros Hpos Hne.
  assert (Hk : ∀ bsc, bsc ∈ filter (survives thr) raw → 0 <= bsc.1.2).
  { intros bsc [[_ Hs] Hin]%list_elem_of_filter.
    destruct Hpos as [Ht|Hr]; [lra|by apply Hr]. }
  split.
  - intros d ([[b s] c] & -> & Hin)%list_elem_of_fmap. cbn.
    apply truncate_float_resp_le. by apply (M2 _ Hin).
  - destruct M3 as [E|(x & Hx & E)].
    + destruct (filter (survives thr) raw) as [|x l] eqn:F; [done|].
      exists (detection_entry_of x). split; [by left|].
      destruct x as [[b s] c]. cbn. apply truncate_float_comp.
      assert (s <= max_conf_of thr raw) by (apply (M2 (b, s, c)); by left).
      assert (0 <= s) by (apply (Hk (b, s, c)); by left).
      rewrite E in *. cbn in *. apply Qle_antisym; lra.
    + exists (detection_entry_of x). split.
      * apply list_elem_of_fmap. eauto.
      * destruct x as [[b s] c]. cbn in *. by rewrite E.
Qed.

(** The proviso of the last part is needed: with a negative threshold a
    negative score survives, and the maximum stays at its initial 0. *)
Lemma max_confidence_negative_scores :
  detections_of (-1) [(TfBox 0 0 1 1, -0.5, 1%Z)]
    = [ {| category := "1"; conf := Qred (-0.5);
           bbox := Qred <$> [0; 0; 1; 1] |} ]
  ∧ truncate_float (max_conf_of (-1) [(TfBox 0 0 1 1, -0.5, 1%Z)]) CONF_DIGITS
    = 0.
Proof. split; by vm_compute. Qed.

(** C9.  The detections of a successful result are the entries of a
    sublist of the raw detections of the backend: the survivors, in the order
    in which the backend produced them. *)
Theorem detections_keep_backend_order run image image_id thr raw :
  backend_returns run image raw →
  ∃ kept,
    kept `sublist_of` raw
    ∧ (generate_detections_one_image run image image_id thr).1 !! "detections"
        = Some (PyDetections (detection_entry_of <$> kept)).
Proof.
  intros H. exists (filter (survives thr) raw). split; [apply sublist_filter|].
  rewrite (generate_detections_success _ _ _ _ _ H), <- detections_of_eq.
  apply lookup_detections.
Qed.

End DetectorProperties.

(** ** [load_and_run_detector] and the server loop *)

Section PipelineProperties.
Import TFDetector Spec.
Context {Frame : Type}.
Variable run : Frame → outcome tensors.
Variable render : list detection_entry → Frame → Q → Frame.
Variable resize_and_label : Frame → string → Frame.

(** After a failed inference the result has no ['detections'] key, so the
    lookup in [load_and_run_detector] raises. *)
Lemma load_and_run_detector_failure image e :
  run image = Raise e →
  load_and_run_detector run render image = Raise (KeyError "detections").
Proof.
  intros H. unfold load_and_run_detector.
  rewrite (generate_detections_failure _ _ _ _ _ H).
  unfold getitem. by rewrite lookup_insert_ne, lookup_singleton_ne.
Qed.

(** The exception leaves the loop: the cycle of the failing frame ends
    after the reply, and no later frame is looked at. *)
Lemma server_loop_failure rpiName frame waitKey inputs trace e :
  run (resize_and_label frame rpiName) = Raise e →
  server_loop run render resize_and_label
    ((rpiName, frame, waitKey) :: inputs) trace
  = (trace ++ [SendReply], Crashed (KeyError "detections")).
Proof.
  intros H. cbn [server_loop].
  by rewrite (load_and_run_detector_failure _ _ H).
Qed.

(** C10.  If the backend raises for a frame, [generate_detections_one_image]
    returns the failure-tagged result together with the flag 0, on which the
    dispatcher does not alert; the server cycle of that frame emits no
    beep. *)
Theorem failed_inference_never_alerts
    rpiName frame waitKey inputs trace image_id thr e :
  run (resize_and_label frame rpiName) = Raise e →
  let out :=
    generate_detections_one_image run (resize_and_label frame rpiName)
      image_id thr in
  out.1 !! "failure" = Some (PyStr FAILURE_TF_INFER)
  ∧ out.2 = 0%Z
  ∧ should_alert out.2 = false
  ∧ ∀ frequency duration,
      Beep frequency duration
        ∈ (server_loop run render resize_and_label
             ((rpiName, frame, waitKey) :: inputs) trace).1 →
      Beep frequency duration ∈ trace.
Proof.
  intros H out. unfold out.
  rewrite (generate_detections_failure _ _ _ _ _ H),
    (server_loop_failure _ _ _ _ _ _ H). cbn [fst snd].
  split; [apply lookup_insert_eq|]. split; [done|]. split; [done|].
  intros frequency duration [Hin|Hin]%elem_of_app; [done|].
  by apply list_elem_of_singleton in Hin.
Qed.

End PipelineProperties.

(** ** The properties on the concrete installation *)

Section Witnesses.
Import TFDetector Spec Example.

Local Ltac backend_answers :=
  do 4 eexists; repeat split; reflexivity.

(** C1 fails on the code.  On the installation whose backend raises on
    frame 0: [generate_detections_one_image] catches the exception and
    returns the failure-tagged result with the flag 0; the caller
    [load_and_run_detector] then reads [result['detections']], which is
    absent, and raises [KeyError]; the server loop has no handler, so it ends
    in the cycle of frame 0 and the next frame, which would have been
    processed and would have raised the alert, is never looked at. *)
Theorem inference_failure_halts_server :
  generate_detections_one_image flaky_session 0%nat 0%nat
      DEFAULT_OUTPUT_CONFIDENCE_THRESHOLD
    = (<[ "failure" := PyStr FAILURE_TF_INFER ]> {[ "file" := PyImageId 0%nat ]},
       0%Z)
  ∧ load_and_run_detector flaky_session render_nothing 0%nat
    = Raise (KeyError "detections")
  ∧ server_loop flaky_session render_nothing keep_frame
      [ ("cam", 0%nat, 0%Z); ("cam", 1%nat, 0%Z) ] []
    = ([SendReply], Crashed (KeyError "detections"))
  ∧ server_loop flaky_session render_nothing keep_frame
      [ ("cam", 1%nat, 0%Z) ] []
    = ([SendReply; ImShow 1%nat; Beep 2500 500], AwaitFrame).
Proof. repeat split; by vm_compute. Qed.


Lemma threshold_is_exclusive_witness :
  (1 ≠ 3)%Z
  ∧ backend_returns (constant_session raw_example) 0%nat
      ([] ++ (TfBox 0.1 0.2 0.4 0.5, 0.92, 1%Z) :: [vehicle_detection])
  ∧ ∃ dets,
      (generate_detections_one_image (constant_session raw_example)
         0%nat 0%nat 0.92).1 !! "detections" = Some (PyDetections dets)
      ∧ (0.92 < 0.92 →
         dets = detections_of 0.92 []
                  ++ detection_entry_of (TfBox 0.1 0.2 0.4 0.5, 0.92, 1%Z)
                     :: detections_of 0.92 [vehicle_detection])
      ∧ (¬ 0.92 < 0.92 →
         dets = detections_of 0.92 [] ++ detections_of 0.92 [vehicle_detection])
      ∧ (0.92 == 0.92 →
         dets = detections_of 0.92 [] ++ detections_of 0.92 [vehicle_detection])
      ∧ (∀ ε, 0 < ε → 0.92 == 0.92 + ε →
         dets = detections_of 0.92 []
                  ++ detection_entry_of (TfBox 0.1 0.2 0.4 0.5, 0.92, 1%Z)
                     :: detections_of 0.92 [vehicle_detection]).
Proof.
  assert (C : (1 ≠ 3)%Z) by lia.
  assert (B : backend_returns (constant_session raw_example) 0%nat
      ([] ++ (TfBox 0.1 0.2 0.4 0.5, 0.92, 1%Z) :: [vehicle_detection]))
    by backend_answers.
  split; [exact C|]. split; [exact B|].
  exact (threshold_is_exclusive (constant_session raw_example) 0%nat 0%nat
           0.92 [] [vehicle_detection] (TfBox 0.1 0.2 0.4 0.5) 0.92 1%Z C B).
Defined.

Lemma animal_flag_ignores_threshold_witness :
  backend_returns (constant_session raw_example) 0%nat raw_example
  ∧ let flag :=
      (generate_detections_one_image (constant_session raw_example)
         0%nat 0%nat 0.95).2 in
    (flag = 1%Z ↔ ∃ b s, (b, s, 1%Z) ∈ raw_example)
    ∧ (flag ≠ 1%Z → flag = 0%Z)
    ∧ (∀ b s, (b, s, 1%Z) ∈ raw_example → s <= 0.95 → flag = 1%Z).
Proof.
  assert (B : backend_returns (constant_session raw_example) 0%nat raw_example)
    by backend_answers.
  split; [exact B|].
  exact (animal_flag_ignores_threshold (constant_session raw_example)
           0%nat 0%nat 0.95 raw_example B).
Defined.

Lemma excluded_class_contributes_nothing_witness :
  backend_returns (constant_session raw_example) 0%nat
    ([animal_detection] ++ (TfBox 0 0 1 1, 0.99, 3%Z) :: [])
  ∧ backend_returns (constant_session [animal_detection]) 1%nat
      ([animal_detection] ++ [])
  ∧ generate_detections_one_image (constant_session raw_example) 0%nat 0%nat 0.1
    = generate_detections_one_image
        (constant_session [animal_detection]) 1%nat 0%nat 0.1
  ∧ ∃ dets,
      (generate_detections_one_image (constant_session raw_example)
         0%nat 0%nat 0.1).1 !! "detections" = Some (PyDetections dets)
      ∧ ∀ d, d ∈ dets → category d ≠ "3".
Proof.
  assert (B : backend_returns (constant_session raw_example) 0%nat
    ([animal_detection] ++ (TfBox 0 0 1 1, 0.99, 3%Z) :: []))
    by backend_answers.
  assert (B' : backend_returns (constant_session [animal_detection]) 1%nat
      ([animal_detection] ++ []))
    by backend_answers.
  split; [exact B|]. split; [exact B'|].
  exact (excluded_class_contributes_nothing _ _ _ _ 0%nat 0.1 _ _ _ _ B B').
Defined.

Lemma max_confidence_is_maximum_witness :
  backend_returns (constant_session raw_example) 0%nat raw_example
  ∧ ∃ dets m,
      (generate_detections_one_image (constant_session raw_example)
         0%nat 0%nat 0.1).1 !! "detections" = Some (PyDetections dets)
      ∧ (generate_detections_one_image (constant_session raw_example)
           0%nat 0%nat 0.1).1 !! "max_detection_conf" = Some (PyFloat m)
      ∧ 0 <= m
      ∧ (dets = [] → m = 0)
      ∧ ((0 <= 0.1 ∨ ∀ bsc, bsc ∈ raw_example → 0 <= bsc.1.2) →
         dets ≠ [] →
         (∀ d, d ∈ dets → conf d <= m) ∧ ∃ d, d ∈ dets ∧ conf d = m).
Proof.
  assert (B : backend_returns (constant_session raw_example) 0%nat raw_example)
    by backend_answers.
  split; [exact B|].
  exact (max_confidence_is_maximum (constant_session raw_example)
           0%nat 0%nat 0.1 raw_example B).
Defined.

Lemma detections_keep_backend_order_witness :
  backend_returns (constant_session raw_example) 0%nat raw_example
  ∧ ∃ kept,
      kept `sublist_of` raw_example
      ∧ (generate_detections_one_image (constant_session raw_example)
           0%nat 0%nat 0.1).1 !! "detections"
        = Some (PyDetections (detection_entry_of <$> kept)).
Proof.
  assert (B : backend_returns (constant_session raw_example) 0%nat raw_example)
    by backend_answers.
  split; [exact B|]. exact (detections_keep_backend_order _ _ _ _ _ B).
Defined.

Lemma failed_inference_never_alerts_witness :
  flaky_session (keep_frame 0%nat "cam") = Raise (BackendError "inference failed")
  ∧ let out :=
      generate_detections_one_image flaky_session (keep_frame 0%nat "cam")
        0%nat 0.1 in
    out.1 !! "failure" = Some (PyStr FAILURE_TF_INFER)
    ∧ out.2 = 0%Z
    ∧ should_alert out.2 = false
    ∧ ∀ frequency duration,
        Beep frequency duration
          ∈ (server_loop flaky_session render_nothing keep_frame
               [ ("cam", 0%nat, 0%Z); ("cam", 1%nat, 0%Z) ] []).1 →
        Beep frequency duration ∈ ([] : list (event nat)).
Proof.
  split; [reflexivity|].
  exact (failed_inference_never_alerts flaky_session render_nothing keep_frame
           "cam" 0%nat 0%Z [ ("cam", 1%nat, 0%Z) ] [] 0%nat 0.1 _ eq_refl).
Defined.

End Witnesses.

(** ** Further properties of the coordinate conversions *)

Section MoreCoordinateProperties.
Import TFDetector Spec.

(** X1.  For a box of the data model, converted with a floating-point
    subtraction that is off by at most [u], the canonical box has its corner
    between 0 and the corner of the box, an extent that is not negative and
    exceeds the extent of the box by at most [u], and corner plus extent
    passes the far edge of the box, and 1, by at most [u]. *)
Theorem rounded_convert_coords_stays_in_box u fl (b : tf_box) :
  Rounded.rounding u fl →
  valid_box b →
  ∃ x y width height,
    Rounded.__convert_coords fl b = [x; y; width; height]
    ∧ (0 <= x ∧ x <= bx1 b) ∧ (0 <= y ∧ y <= by1 b)
    ∧ (0 <= width ∧ width <= bx2 b - bx1 b + u)
    ∧ (0 <= height ∧ height <= by2 b - by1 b + u)
    ∧ x + width <= bx2 b + u ∧ y + height <= by2 b + u
    ∧ x + width <= 1 + u ∧ y + height <= 1 + u.
Proof.
  intros R ((Hy1 & _) & (Hx1 & _) & (_ & Hy2) & (_ & Hx2) & Hy & Hx).
  do 4 eexists. split; [reflexivity|]. unfold round_and_make_float.
  destruct (truncate_float_bounds_nonneg COORD_DIGITS (by1 b))
    as (A0 & A1 & _); [done|].
  destruct (truncate_float_bounds_nonneg COORD_DIGITS (bx1 b))
    as (B0 & B1 & _); [done|].
  destruct (rounding_bounds u fl (by2 b - by1 b) R)
    as (S0 & S1 & S2); [lra..|].
  destruct (rounding_bounds u fl (bx2 b - bx1 b) R)
    as (T0 & T1 & T2); [lra..|].
  destruct (truncate_float_bounds_nonneg COORD_DIGITS (fl (by2 b - by1 b)))
    as (C0 & C1 & _); [done|].
  destruct (truncate_float_bounds_nonneg COORD_DIGITS (fl (bx2 b - bx1 b)))
    as (D0 & D1 & _); [done|].
  repeat split; lra.
Qed.

(** X2.  [convert_to_tf_coords] raises [IndexError] exactly on arrays with fewer
    than four entries; on longer ones it uses the first four and ignores the
    rest. *)
Theorem convert_to_tf_coords_index_error (array : list Q) :
  ((length array < 4)%nat ↔ convert_to_tf_coords array = Raise IndexError)
  ∧ ∀ x1 y1 width height rest,
      array = x1 :: y1 :: width :: height :: rest →
      convert_to_tf_coords array = Ok [y1; x1; y1 + height; x1 + width].
Proof.
  split.
  - destruct array as [|x1 [|y1 [|w [|h rest]]]]; cbn; split;
      (done || lia || idtac).
  - by intros x1 y1 w h rest ->.
Qed.

End MoreCoordinateProperties.

(** ** Further properties of the detection loop *)

Section MoreLoopProperties.
Import TFDetector Spec.
Implicit Types (st : locals) (raw : list (tf_box * Q * Z)) (thr s : Q) (c : Z).

Local Ltac Qgtb_hyps :=
  repeat match goal with
         | H : Qgtb _ _ = true |- _ => apply Qgtb_true in H
         | H : Qgtb _ _ = false |- _ => apply Qgtb_false in H
         end.

Lemma filter_sublist_impl {A : Type} (P R : A → Prop)
    `{!∀ x, Decision (P x)} `{!∀ x, Decision (R x)} (l : list A) :
  (∀ x, P x → R x) → filter P l `sublist_of` filter R l.
Proof.
  intros HPR. induction l as [|x l IH]; [done|].
  rewrite !filter_cons. destruct (decide (P x)) as [HP|HP].
  - rewrite decide_True by auto. by apply sublist_skip.
  - destruct (decide (R x)); [by apply sublist_cons|done].
Qed.

Lemma sublist_map {A B : Type} (f : A → B) (l k : list A) :
  l `sublist_of` k → f <$> l `sublist_of` f <$> k.
Proof.
  induction 1 as [|x l k _ IH|x l k _ IH]; cbn.
  - constructor.
  - by apply sublist_skip.
  - by apply sublist_cons.
Qed.

Lemma filter_none {A : Type} (P : A → Prop) `{!∀ x, Decision (P x)}
    (l : list A) :
  (∀ x, x ∈ l → ¬ P x) → filter P l = [].
Proof.
  induction l as [|x l IH]; intros Hn; [done|].
  rewrite filter_cons_False by (apply Hn; by left).
  apply IH. intros y Hy. apply Hn. by right.
Qed.

(** The loop either leaves [max_detection_conf] as it is or raises it. *)
Lemma detection_loop_max_strict thr raw st :
  max_detection_conf (detection_loop thr raw st) = max_detection_conf st
  ∨ max_detection_conf st < max_detection_conf (detection_loop thr raw st).
Proof.
  revert st. induction raw as [|bsc raw IH]; intros st; [by left|].
  rewrite detection_loop_cons.
  destruct (IH (loop_body thr st bsc)) as [->|H]; revert H || idtac;
    rewrite loop_body_max;
    (destruct (decide (survives thr bsc)); [|by auto]);
    (destruct (Qgtb bsc.1.2 (max_detection_conf st)) eqn:G; [|by auto]);
    apply Qgtb_true in G.
  - by right.
  - intros H. right. lra.
Qed.

(** The maximum that the loop reaches from a larger starting value is the
    larger of that value and the maximum reached from the smaller one. *)
Lemma detection_loop_max_from thr raw st st' :
  max_detection_conf st' <= max_detection_conf st →
  max_detection_conf (detection_loop thr raw st) =
    if Qgtb (max_detection_conf (detection_loop thr raw st'))
            (max_detection_conf st)
    then max_detection_conf (detection_loop thr raw st')
    else max_detection_conf st.
Proof.
  revert st st'. induction raw as [|bsc raw IH]; intros st st' Hle.
  - cbn. apply Qgtb_false in Hle. by rewrite Hle.
  - rewrite !detection_loop_cons.
    assert (Hle' : max_detection_conf (loop_body thr st' bsc)
                   <= max_detection_conf (loop_body thr st bsc)).
    { rewrite !loop_body_max. destruct (decide (survives thr bsc)); [|done].
      destruct (Qgtb bsc.1.2 (max_detection_conf st)) eqn:G1;
        destruct (Qgtb bsc.1.2 (max_detection_conf st')) eqn:G2;
        Qgtb_hyps; lra. }
    rewrite (IH _ _ Hle').
    pose proof (detection_loop_max_strict thr raw (loop_body thr st' bsc)) as S.
    revert S. rewrite !loop_body_max.
    destruct (decide (survives thr bsc)); [|done].
    destruct (Qgtb bsc.1.2 (max_detection_conf st)) eqn:G1; [|done].
    apply Qgtb_true in G1.
    assert (G2 : Qgtb bsc.1.2 (max_detection_conf st') = true)
      by (apply Qgtb_true; lra).
    rewrite G2. intros [->|S].
    + assert (E1 : Qgtb bsc.1.2 bsc.1.2 = false)
        by (apply Qgtb_false; lra).
      apply Qgtb_true in G1. by rewrite E1, G1.
    + assert (E1 : Qgtb (max_detection_conf
                           (detection_loop thr raw (loop_body thr st' bsc)))
                        bsc.1.2 = true) by (by apply Qgtb_true).
      assert (E2 : Qgtb (max_detection_conf
                           (detection_loop thr raw (loop_body thr st' bsc)))
                        (max_detection_conf st) = true)
        by (apply Qgtb_true; lra).
      by rewrite E1, E2.
Qed.


Lemma zip3_length boxes scores classes :
  length (zip3 boxes scores classes)
  = Nat.min (Nat.min (length boxes) (length scores)) (length classes).
Proof. unfold zip3. by rewrite !length_zip. Qed.

Lemma zip3_take n boxes scores classes :
  zip3 (take n boxes) (take n scores) (take n classes)
  = take n (zip3 boxes scores classes).
Proof. unfold zip3. by rewrite !zip_with_take. Qed.

(** X4.  The loop over a concatenation: the detections are concatenated, the
    maximum is the larger of the two maxima (the first on a tie) and the
    flag is raised when either part raises it. *)
Theorem detection_loop_concat thr raw1 raw2 :
  detections_of thr (raw1 ++ raw2)
    = detections_of thr raw1 ++ detections_of thr raw2
  ∧ max_conf_of thr (raw1 ++ raw2)
    = (if Qgtb (max_conf_of thr raw2) (max_conf_of thr raw1)
       then max_conf_of thr raw2 else max_conf_of thr raw1)
  ∧ animal_of thr (raw1 ++ raw2)
    = (animal_of thr raw1 `max` animal_of thr raw2)%Z.
Proof.
  unfold detections_of, max_conf_of, animal_of.
  rewrite detection_loop_app. split; [|split].
  - rewrite (detection_loop_detections thr raw2),
      (detection_loop_detections thr raw2 init_locals). done.
  - apply detection_loop_max_from.
    by destruct (detection_loop_max thr raw1 init_locals) as (? & _).
  - rewrite !detection_loop_animal. cbn.
    by repeat destruct (decide _).
Qed.

(** X5.  Raising the threshold only removes detections: the detections for the
    higher threshold are a sublist of those for the lower one, the maximum
    does not grow, and the flag is the same. *)
Theorem raising_threshold_only_removes thr1 thr2 raw :
  thr1 <= thr2 →
  detections_of thr2 raw `sublist_of` detections_of thr1 raw
  ∧ max_conf_of thr2 raw <= max_conf_of thr1 raw
  ∧ animal_of thr2 raw = animal_of thr1 raw.
Proof.
  intros Hle.
  assert (Himp : ∀ bsc, survives thr2 bsc → survives thr1 bsc).
  { intros bsc [Hc Hs]. split; [done|lra]. }
  split; [|split].
  - rewrite !detections_of_eq. apply sublist_map.
    by apply filter_sublist_impl.
  - destruct (detection_loop_max thr2 raw init_locals) as (_ & _ & M3).
    destruct (detection_loop_max thr1 raw init_locals) as (N1 & N2 & _).
    cbn zeta in *. unfold max_conf_of.
    destruct M3 as [->|(bsc & Hin & ->)]; [done|].
    apply N2. apply list_elem_of_filter in Hin as [Hs Hin].
    apply list_elem_of_filter. auto.
  - unfold animal_of. by rewrite !detection_loop_animal.
Qed.

End MoreLoopProperties.

(** ** Further properties of [generate_detections_one_image] *)

Section MoreDetectorProperties.
Import TFDetector Spec.
Context {Frame : Type}.
Implicit Types (run : Frame → outcome tensors) (image image_id : Frame).
Implicit Types (raw : list (tf_box * Q * Z)) (thr s : Q) (c : Z).

(** X6.  Whatever the backend returns or raises, the result carries the
    file, and its keys are either those of a success (maximum and
    detections, no failure) or those of a failure (the failure tag only),
    never a mixture. *)
Theorem result_is_success_or_failure run image image_id thr :
  let out := generate_detections_one_image run image image_id thr in
  out.1 !! "file" = Some (PyImageId image_id)
  ∧ (dom out.1 = {[ "file"; "max_detection_conf"; "detections" ]}
     ∨ (dom out.1 = {[ "file"; "failure" ]}
        ∧ out.1 !! "failure" = Some (PyStr FAILURE_TF_INFER))).
Proof.
  unfold generate_detections_one_image.
  destruct (try_block run image thr 0) as [st|e]; cbn.
  - split; [by rewrite !lookup_insert_ne, lookup_singleton_eq|].
    left. rewrite !dom_insert_L, dom_singleton_L. set_solver.
  - split; [by rewrite lookup_insert_ne, lookup_singleton_eq|].
    right. split; [|apply lookup_insert_eq].
    rewrite dom_insert_L, dom_singleton_L. set_solver.
Qed.

(** X7.  When the backend answers with an empty batch in one of its three
    tensors, the lookup of the first image raises inside the [try] block:
    the result is the failure result and the flag is 0. *)
Theorem empty_batch_is_failure run image image_id thr out :
  run image = Ok out →
  box_tensor_out out = [] ∨ score_tensor_out out = []
    ∨ class_tensor_out out = [] →
  generate_detections_one_image run image image_id thr =
    (<[ "failure" := PyStr FAILURE_TF_INFER ]>
       {[ "file" := PyImageId image_id ]}, 0%Z).
Proof.
  intros E H. unfold generate_detections_one_image, try_block,
    _generate_detections_one_image, index. rewrite E. cbn.
  destruct (box_tensor_out out) as [|boxes ?]; [done|].
  destruct (score_tensor_out out) as [|scores ?]; [done|].
  destruct (class_tensor_out out) as [|classes ?]; [done|].
  by destruct H as [?|[?|?]].
Qed.

(** X8.  Tensors of different lengths are cut to the shortest: the result is
    the one for the first [n] rows of each, [n] the smallest of the three
    lengths, and it lists at most [n] detections. *)
Theorem mismatched_lengths_are_cut
    run image image_id thr out boxes scores classes :
  run image = Ok out →
  box_tensor_out out !! 0%nat = Some boxes →
  score_tensor_out out !! 0%nat = Some scores →
  class_tensor_out out !! 0%nat = Some classes →
  let n := Nat.min (Nat.min (length boxes) (length scores)) (length classes) in
  generate_detections_one_image run image image_id thr
    = generate_detections_one_image
        (constant_session
           (zip3 (take n boxes) (take n scores) (take n classes)))
        image image_id thr
  ∧ ∃ dets,
      (generate_detections_one_image run image image_id thr).1 !! "detections"
        = Some (PyDetections dets)
      ∧ (length dets ≤ n)%nat.
Proof.
  intros E Hb Hs Hc n.
  assert (B : backend_returns run image (zip3 boxes scores classes)).
  { by exists out, boxes, scores, classes. }
  assert (Z3 : zip3 (take n boxes) (take n scores) (take n classes)
               = zip3 boxes scores classes).
  { rewrite zip3_take. apply take_ge. by rewrite zip3_length. }
  rewrite (generate_detections_success _ _ _ _ _ B), Z3,
    (generate_detections_success _ _ _ _ _
       (constant_session_returns (zip3 boxes scores classes) image)).
  split; [done|]. eexists. split; [apply lookup_detections|].
  rewrite detections_of_eq, length_fmap.
  etransitivity; [apply length_filter|]. by rewrite zip3_length.
Qed.

(** X9.  Every listed detection is the entry of a raw detection whose class is
    not 3 and whose score is above the threshold.  Its listed confidence is
    the truncated score, so it is at least the truncated threshold; it need
    not be above the threshold itself (a score of 0.1004 is listed with the
    confidence 0.1 for the threshold 0.1). *)
Theorem listed_detections_come_from_survivors run image image_id thr raw :
  backend_returns run image raw →
  (∃ dets,
     (generate_detections_one_image run image image_id thr).1 !! "detections"
       = Some (PyDetections dets)
     ∧ ∀ d, d ∈ dets →
         (∃ b s c, (b, s, c) ∈ raw ∧ c ≠ 3%Z ∧ thr < s
                   ∧ d = detection_entry_of (b, s, c))
         ∧ truncate_float thr CONF_DIGITS <= conf d)
  ∧ detections_of 0.1 [(TfBox 0 0 1 1, 0.1004, 1%Z)]
    = [ {| category := "1"; conf := Qred 0.1; bbox := Qred <$> [0; 0; 1; 1] |} ].
Proof.
  intros B. split; [|by vm_compute].
  eexists. rewrite (generate_detections_success _ _ _ _ _ B).
  split; [apply lookup_detections|].
  intros d. rewrite detections_of_eq.
  intros ([[b s] c] & -> & [[Hc Hs] Hin]%list_elem_of_filter)%list_elem_of_fmap.
  cbn in *. split; [by exists b, s, c|].
  apply truncate_float_resp_le. lra.
Qed.

(** X10.  Every listed box has four components and converts back without an
    [IndexError]. *)
Theorem listed_boxes_convert_back run image image_id thr raw :
  backend_returns run image raw →
  ∃ dets,
    (generate_detections_one_image run image image_id thr).1 !! "detections"
      = Some (PyDetections dets)
    ∧ ∀ d, d ∈ dets →
        length (bbox d) = 4%nat
        ∧ ∃ back, convert_to_tf_coords (bbox d) = Ok back
                  ∧ length back = 4%nat.
Proof.
  intros B. eexists. rewrite (generate_detections_success _ _ _ _ _ B).
  split; [apply lookup_detections|].
  intros d. rewrite detections_of_eq.
  intros ([[b s] c] & -> & _)%list_elem_of_fmap.
  split; [done|]. by eexists.
Qed.

(** X11.  When no raw detection outside class 3 scores above the threshold, the
    result lists nothing and its maximum is 0, whatever the flag is. *)
Theorem no_survivor_gives_empty_result run image image_id thr raw :
  backend_returns run image raw →
  (∀ b s c, (b, s, c) ∈ raw → c = 3%Z ∨ s <= thr) →
  (generate_detections_one_image run image image_id thr).1 =
    <[ "detections" := PyDetections [] ]>
      (<[ "max_detection_conf" := PyFloat 0 ]>
         {[ "file" := PyImageId image_id ]}).
Proof.
  intros B Hno. rewrite (generate_detections_success _ _ _ _ _ B). cbn [fst].
  assert (F : filter (survives thr) raw = []).
  { apply filter_none. intros [[b s] c] Hin [Hc Hs]. cbn in *.
    destruct (Hno b s c Hin) as [?|?]; [done|lra]. }
  destruct (detection_loop_max thr raw init_locals) as (_ & _ & M3).
  cbn zeta in M3. rewrite F in M3.
  rewrite detections_of_eq, F. unfold max_conf_of.
  destruct M3 as [->|(x & Hx%elem_of_nil & _)]; [|done].
  by vm_compute.
Qed.

(** X12.  For scores of the data model, between 0 and 1, every listed confidence
    and the maximum confidence are between 0 and 1. *)
Theorem confidences_stay_in_unit_interval run image image_id thr raw :
  backend_returns run image raw →
  (∀ b s c, (b, s, c) ∈ raw → 0 <= s ∧ s <= 1) →
  ∃ dets m,
    (generate_detections_one_image run image image_id thr).1 !! "detections"
      = Some (PyDetections dets)
    ∧ (generate_detections_one_image run image image_id thr).1
        !! "max_detection_conf" = Some (PyFloat m)
    ∧ (0 <= m ∧ m <= 1)
    ∧ ∀ d, d ∈ dets → 0 <= conf d ∧ conf d <= 1.
Proof.
  intros B Hs. do 2 eexists.
  rewrite (generate_detections_success _ _ _ _ _ B). cbn [fst].
  split; [apply lookup_detections|].
  split; [by rewrite lookup_insert_ne, lookup_insert_eq|].
  split.
  - destruct (detection_loop_max thr raw init_locals) as (M1 & _ & M3).
    cbn zeta in *. fold (max_conf_of thr raw) in M1, M3. cbn in M1.
    destruct (truncate_float_bounds_nonneg CONF_DIGITS (max_conf_of thr raw))
      as (T0 & T1 & _); [lra|].
    split; [done|].
    assert (Hm : max_conf_of thr raw <= 1); [|lra].
    destruct M3 as [E|([[b s] c] & [_ Hin]%list_elem_of_filter & E)].
    + rewrite E. by vm_compute.
    + rewrite E. cbn. by destruct (Hs b s c Hin).
  - intros d. rewrite detections_of_eq.
    intros ([[b s] c] & -> & [_ Hin]%list_elem_of_filter)%list_elem_of_fmap.
    cbn. destruct (Hs b s c Hin) as [H0 H1].
    destruct (truncate_float_bounds_nonneg CONF_DIGITS s H0) as (T0 & T1 & _).
    split; lra.
Qed.

End MoreDetectorProperties.

(** ** Further properties of [load_and_run_detector] and of the server *)

Section MorePipelineProperties.
Import TFDetector Spec Trace.
Context {Frame : Type}.
Variable run : Frame → outcome tensors.
Variable render : list detection_entry → Frame → Q → Frame.
Variable resize_and_label : Frame → string → Frame.
Implicit Types (inputs : list (string * Frame * Z)) (trace : list (event Frame)).

(** [load_and_run_detector] in terms of the [try] block of the detector,
    run with the default output threshold. *)
Lemma load_and_run_detector_eq image :
  load_and_run_detector run render image =
    match try_block run image DEFAULT_OUTPUT_CONFIDENCE_THRESHOLD 0 with
    | Ok st =>
        Ok (render (detections_cur_image st) image
              DEFAULT_RENDERING_CONFIDENCE_THRESHOLD, animal st)
    | Raise _ => Raise (KeyError "detections")
    end.
Proof.
  unfold load_and_run_detector, generate_detections_one_image.
  destruct (try_block run image DEFAULT_OUTPUT_CONFIDENCE_THRESHOLD 0)
    as [st|e]; unfold getitem.
  - by rewrite lookup_insert_eq.
  - by rewrite lookup_insert_ne, lookup_singleton_ne.
Qed.

Lemma load_and_run_detector_returns image raw :
  backend_returns run image raw →
  load_and_run_detector run render image =
    Ok (render (detections_of 0.1 raw) image 0.85, animal_of 0.1 raw).
Proof.
  intros B. rewrite load_and_run_detector_eq.
  by rewrite (try_block_returns _ _ _ _ _ B).
Qed.

Lemma load_and_run_detector_raises image e :
  load_and_run_detector run render image = Raise e →
  e = KeyError "detections".
Proof.
  rewrite load_and_run_detector_eq.
  destruct (try_block run image DEFAULT_OUTPUT_CONFIDENCE_THRESHOLD 0);
    [done|]. by intros [= <-].
Qed.

(** X13.  When the backend answers, [load_and_run_detector] returns the image
    rendered with the detections for the threshold 0.1 and the rendering
    threshold 0.85, together with the flag.  When the backend raises, the
    result has no ['detections'] and [load_and_run_detector] raises
    [KeyError] on it. *)
Theorem load_and_run_detector_outcomes image :
  (∀ raw, backend_returns run image raw →
     load_and_run_detector run render image =
       Ok (render (detections_of 0.1 raw) image 0.85, animal_of 0.1 raw))
  ∧ (∀ e, run image = Raise e →
       load_and_run_detector run render image = Raise (KeyError "detections")).
Proof.
  split.
  - intros raw B. rewrite load_and_run_detector_eq.
    by rewrite (try_block_returns _ _ _ _ _ B).
  - intros e H. by apply (load_and_run_detector_failure run render image e).
Qed.

(** One cycle of the server on a frame for which the detector returns. *)
Lemma server_loop_cycle rpiName frame waitKey inputs trace res flag :
  load_and_run_detector run render (resize_and_label frame rpiName)
    = Ok (res, flag) →
  server_loop run render resize_and_label ((rpiName, frame, waitKey) :: inputs) trace =
    let trace' :=
      (trace ++ [SendReply]) ++ [ImShow res]
        ++ (if should_alert flag then [Beep 2500 500] else []) in
    if (Z.land waitKey 255 =? ord_q)%Z then (trace', Quit)
    else server_loop run render resize_and_label inputs trace'.
Proof.
  intros H. cbn [server_loop]. rewrite H. cbn zeta.
  destruct (should_alert flag); rewrite <- ?app_assoc; [done|].
  by rewrite app_nil_r.
Qed.

(** The events already in the trace are kept, and what the loop adds and
    how it ends do not depend on them. *)
Lemma server_loop_extends_trace inputs trace :
  server_loop run render resize_and_label inputs trace
  = (trace ++ (server_loop run render resize_and_label inputs []).1, (server_loop run render resize_and_label inputs []).2).
Proof.
  revert trace. induction inputs as [|[[n f] k] inputs IH]; intros trace.
  - cbn. by rewrite app_nil_r.
  - destruct (load_and_run_detector run render (resize_and_label f n))
      as [[res flag]|e] eqn:L.
    + rewrite !(server_loop_cycle _ _ _ _ _ _ _ L). cbn zeta.
      destruct (Z.land k 255 =? ord_q)%Z.
      * cbn. by rewrite <- !app_assoc.
      * rewrite IH. rewrite (IH (([] ++ _) ++ _)). cbn [fst snd].
        by rewrite <- !app_assoc.
    + cbn [server_loop]. rewrite L. done.
Qed.

(** X14.  Frames that arrive later are handled by the loop as it stands after the
    earlier ones: if it is still awaiting a frame it goes on with them, and
    after a quit or a crash they are not looked at. *)
Theorem server_loop_app inputs1 inputs2 trace :
  server_loop run render resize_and_label (inputs1 ++ inputs2) trace =
    match server_loop run render resize_and_label inputs1 trace with
    | (trace', AwaitFrame) => server_loop run render resize_and_label inputs2 trace'
    | ended => ended
    end.
Proof.
  revert trace. induction inputs1 as [|[[n f] k] inputs1 IH]; intros trace.
  - done.
  - destruct (load_and_run_detector run render (resize_and_label f n))
      as [[res flag]|e] eqn:L.
    + rewrite <- app_comm_cons, !(server_loop_cycle _ _ _ _ _ _ _ L). cbn zeta.
      destruct (Z.land k 255 =? ord_q)%Z; [done|]. apply IH.
    + rewrite <- app_comm_cons. cbn [server_loop]. by rewrite L.
Qed.


Lemma replies_app trace1 trace2 :
  replies (trace1 ++ trace2) = (replies trace1 + replies trace2)%nat.
Proof. unfold replies. by rewrite filter_app, length_app. Qed.

Lemma shown_app trace1 trace2 :
  shown (trace1 ++ trace2) = (shown trace1 + shown trace2)%nat.
Proof. unfold shown. by rewrite filter_app, length_app. Qed.

Lemma beeps_app trace1 trace2 :
  beeps (trace1 ++ trace2) = (beeps trace1 + beeps trace2)%nat.
Proof. unfold beeps. by rewrite filter_app, length_app. Qed.

(** X15.  In a cycle whose inference succeeds, the server replies, shows the
    rendered frame and beeps exactly when some raw detection has class 1,
    whatever its score; it then quits if the low byte of the key is that of
    "q", and goes on with the next frame otherwise. *)
Theorem server_cycle_alerts_iff_class_1
    rpiName frame waitKey inputs trace raw :
  backend_returns run (resize_and_label frame rpiName) raw →
  let res :=
    render (detections_of 0.1 raw) (resize_and_label frame rpiName) 0.85 in
  let cycle :=
    if decide (Exists (λ bsc : tf_box * Q * Z, bsc.2 = 1%Z) raw)
    then [SendReply; ImShow res; Beep 2500 500]
    else [SendReply; ImShow res] in
  server_loop run render resize_and_label ((rpiName, frame, waitKey) :: inputs) trace =
    if (Z.land waitKey 255 =? 113)%Z then (trace ++ cycle, Quit)
    else server_loop run render resize_and_label inputs (trace ++ cycle).
Proof.
  intros B res cycle.
  rewrite (server_loop_cycle _ _ _ _ _ _ _
             (load_and_run_detector_returns _ _ B)). cbn zeta.
  unfold animal_of. rewrite detection_loop_animal. unfold cycle.
  destruct (decide (Exists (λ bsc : tf_box * Q * Z, bsc.2 = 1%Z) raw));
    cbn; rewrite <- ?app_assoc; cbn; by rewrite ?app_nil_r.
Qed.

(** X16.  What a run of the server leaves in its trace: no more beeps than
    shown frames, no more shown frames than replies, at most one reply
    without a shown frame, no more replies than frames received; every beep
    is the one of 2500 Hz for 500 ms; and when the loop ends awaiting a
    frame or on the quit key, every reply has its shown frame. *)
Theorem server_loop_event_counts inputs :
  let out := server_loop run render resize_and_label inputs [] in
  ((beeps out.1 ≤ shown out.1)%nat ∧ (shown out.1 ≤ replies out.1)%nat
   ∧ (replies out.1 ≤ S (shown out.1))%nat
   ∧ (replies out.1 ≤ length inputs)%nat)
  ∧ (∀ frequency duration, Beep frequency duration ∈ out.1 →
       frequency = 2500%Z ∧ duration = 500%Z)
  ∧ (out.2 = AwaitFrame ∨ out.2 = Quit → replies out.1 = shown out.1).
Proof.
  induction inputs as [|[[n f] k] inputs IH]; cbn zeta.
  { cbn. split; [lia|]. split; [|done].
    intros ? ? Hin. by apply elem_of_nil in Hin. }
  destruct (load_and_run_detector run render (resize_and_label f n))
    as [[res flag]|e] eqn:L.
  - rewrite (server_loop_cycle _ _ _ _ _ _ _ L). cbn zeta.
    set (cycle := ([] ++ [SendReply]) ++ [ImShow res]
                    ++ (if should_alert flag then [Beep 2500 500] else [])).
    assert (C : replies cycle = 1%nat ∧ shown cycle = 1%nat
                ∧ (beeps cycle ≤ 1)%nat
                ∧ ∀ fr du, Beep fr du ∈ cycle → fr = 2500%Z ∧ du = 500%Z).
    { unfold cycle. destruct (should_alert flag);
        (split; [by vm_compute|split; [by vm_compute|split;
           [vm_compute; lia|]]]); cbn; intros fr du Hin;
        repeat (apply elem_of_cons in Hin as [Hin|Hin]; [by inversion Hin|]);
        by apply elem_of_nil in Hin. }
    destruct C as (C1 & C2 & C3 & C4).
    destruct (Z.land k 255 =? ord_q)%Z.
    + cbn [fst snd]. rewrite C1, C2. cbn [length].
      split; [lia|]. split; [apply C4|done].
    + rewrite server_loop_extends_trace. cbn [fst snd].
      destruct IH as ((I1 & I2 & I3 & I4) & I5 & I6).
      rewrite replies_app, shown_app, beeps_app, C1, C2. cbn [length].
      split; [lia|]. split.
      * intros fr du [Hin|Hin]%elem_of_app; [by apply C4|by apply I5].
      * intros Hend. by rewrite (I6 Hend).
  - cbn [server_loop]. rewrite L. cbn [fst snd app].
    assert (C : replies [SendReply (Frame:=Frame)] = 1%nat
                ∧ shown [SendReply (Frame:=Frame)] = 0%nat
                ∧ beeps [SendReply (Frame:=Frame)] = 0%nat) by (by vm_compute).
    destruct C as (-> & -> & ->). cbn [length].
    split; [lia|]. split.
    + intros fr du Hin. apply list_elem_of_singleton in Hin. done.
    + by intros [?|?].
Qed.

(** X17.  When the backend answers for every frame and no key is "q", the loop
    handles all the frames: it ends awaiting the next one, with one reply
    and one shown frame for each. *)
Theorem server_loop_healthy_run inputs :
  (∀ rpiName frame waitKey, (rpiName, frame, waitKey) ∈ inputs →
     (∃ raw, backend_returns run (resize_and_label frame rpiName) raw)
     ∧ Z.land waitKey 255 ≠ 113%Z) →
  let out := server_loop run render resize_and_label inputs [] in
  out.2 = AwaitFrame
  ∧ replies out.1 = length inputs ∧ shown out.1 = length inputs.
Proof.
  induction inputs as [|[[n f] k] inputs IH]; intros Hok; cbn zeta; [done|].
  destruct (Hok n f k) as [[raw B] Hk]; [by left|].
  rewrite (server_loop_cycle _ _ _ _ _ _ _
             (load_and_run_detector_returns _ _ B)). cbn zeta.
  apply Z.eqb_neq in Hk. unfold ord_q. rewrite Hk.
  rewrite server_loop_extends_trace. cbn [fst snd].
  destruct IH as (I1 & I2 & I3).
  { intros n' f' k' Hin. apply Hok. by right. }
  rewrite !replies_app, !shown_app, I1, I2, I3.
  split; [done|].
  by destruct (should_alert (animal_of 0.1 raw)).
Qed.

End MorePipelineProperties.

(** ** The script [video_detect.py] *)

Section VideoProperties.
Import TFDetector Spec VideoDetect.
Context {Frame : Type}.
Variable run : Frame → outcome tensors.
Variable render : list detection_entry → Frame → Q → Frame.
Variable shape : Frame → Z * Z * Z.


Lemma read_loop_nil count img_array size :
  read_loop run render shape [] count img_array size = Ok (img_array, size).
Proof. cbn. by destruct (count =? 1000)%nat. Qed.

Lemma read_loop_stop video img_array size :
  read_loop run render shape video 1000 img_array size = Ok (img_array, size).
Proof. by destruct video. Qed.

Lemma read_loop_cons image video count img_array size :
  count ≠ 1000%nat →
  read_loop run render shape (image :: video) count img_array size =
    match load_and_run_detector run render image with
    | Raise e => Raise e
    | Ok (im, flag) =>
        read_loop run render shape video (S count) (img_array ++ [im]) (Some (((shape im).1.2, (shape im).1.1)))
    end.
Proof.
  intros Hc. cbn [read_loop]. apply Nat.eqb_neq in Hc. rewrite Hc.
  destruct (load_and_run_detector run render image) as [[im flag]|e]; [|done].
  by destruct (shape im) as [[h w] l].
Qed.

(** What the reading loop has done when it stops. *)
Lemma read_loop_spec video count img_array size :
  (count ≤ 1000)%nat →
  match read_loop run render shape video count img_array size with
  | Ok (arr, sz) =>
      ∃ added,
        arr = img_array ++ added
        ∧ Forall2 (λ image w, ∃ flag, load_and_run_detector run render image = Ok (w, flag))
            (take (1000 - count) video) added
        ∧ sz = match last added with
               | Some l => Some (((shape l).1.2, (shape l).1.1))
               | None => size
               end
  | Raise e =>
      e = KeyError "detections"
      ∧ ∃ image, image ∈ take (1000 - count) video ∧ load_and_run_detector run render image = Raise e
  end.
Proof.
  revert count img_array size.
  induction video as [|image video IH]; intros count img_array size Hc.
  { rewrite read_loop_nil. exists []. rewrite app_nil_r, take_nil.
    by repeat split. }
  destruct (decide (count = 1000%nat)) as [->|Hne].
  { rewrite read_loop_stop. exists []. rewrite app_nil_r.
    by repeat split. }
  rewrite read_loop_cons by done.
  replace (1000 - count)%nat with (S (1000 - S count)) by lia.
  rewrite firstn_cons.
  destruct (load_and_run_detector run render image) as [[im flag]|e] eqn:L.
  - specialize (IH (S count) (img_array ++ [im]) (Some (((shape im).1.2, (shape im).1.1)))).
    destruct (read_loop run render shape video (S count) (img_array ++ [im]) (Some (((shape im).1.2, (shape im).1.1))))
      as [[arr sz]|e].
    + destruct IH as (added & -> & HF & ->); [lia|].
      exists (im :: added). split; [by rewrite <- app_assoc|].
      split; [constructor; eauto|].
      rewrite last_cons. by destruct (last added).
    + destruct IH as (-> & image' & Hin & HR); [lia|].
      split; [done|]. exists image'. split; [by right|done].
  - split; [by apply (load_and_run_detector_raises run render image)|].
    exists image. split; [by left|done].
Qed.

(** X18.  When the script writes a video, it has written the rendered images of
    the first 1000 frames (of all of them when there are fewer), in order,
    there is at least one, and the size given to the writer is the width and
    height of the last one. *)
Theorem video_detect_writes_first_1000 video size frames :
  video_detect run render shape video = Written size frames →
  length frames = (1000 `min` length video)%nat
  ∧ Forall2 (λ image w, ∃ flag, load_and_run_detector run render image = Ok (w, flag))
      (take 1000 video) frames
  ∧ ∃ l, last frames = Some l ∧ size = ((shape l).1.2, (shape l).1.1).
Proof.
  unfold video_detect.
  pose proof (read_loop_spec video 0 [] None) as S.
  destruct (read_loop run render shape video 0 [] None) as [[arr [sz|]]|e]; [|done|done].
  intros [= -> ->]. destruct S as (added & -> & HF & Hsz); [lia|].
  cbn [app]. rewrite Nat.sub_0_r in HF. split; [|split; [done|]].
  - rewrite <- (Forall2_length _ _ _ HF), length_take. lia.
  - destruct (last added) as [l|]; [|done]. exists l. by injection Hsz.
Qed.

(** X19.  The script stops on the undefined [size] exactly when the video has no
    frame. *)
Theorem video_detect_empty_video video :
  video_detect run render shape video = SizeUndefined ↔ video = [].
Proof.
  unfold video_detect. split.
  - pose proof (read_loop_spec video 0 [] None) as S.
    destruct (read_loop run render shape video 0 [] None) as [[arr [sz|]]|e]; [done| |done].
    intros _. destruct S as (added & -> & HF & Hsz); [lia|].
    destruct added as [|w added].
    + apply Forall2_nil_inv_r in HF. by destruct video.
    + rewrite last_cons in Hsz. by destruct (last added).
  - intros ->. by rewrite read_loop_nil.
Qed.

(** The reading loop looks at no frame after the one that brings the count
    to 1000. *)
Lemma read_loop_take video count img_array size :
  (count ≤ 1000)%nat →
  read_loop run render shape (take (1000 - count) video) count img_array size
  = read_loop run render shape video count img_array size.
Proof.
  revert count img_array size.
  induction video as [|image video IH]; intros count img_array size Hc.
  { by rewrite take_nil. }
  destruct (decide (count = 1000%nat)) as [->|Hne].
  { by rewrite !read_loop_stop. }
  replace (1000 - count)%nat with (S (1000 - S count)) by lia.
  rewrite firstn_cons, !read_loop_cons by done.
  destruct (load_and_run_detector run render image) as [[im flag]|e];
    [|done].
  apply IH. lia.
Qed.

(** X20.  The script ends with an exception of [load_and_run_detector]
    exactly when that function raises on one of the first 1000 frames: the
    exception is the one raised on such a frame, and nothing is written.
    The frames after the 1000th do not matter: the script does on the video
    what it does on its first 1000 frames. *)
Theorem video_detect_inference_error video :
  (∀ e, video_detect run render shape video = InferenceError e →
     ∃ image, image ∈ take 1000 video
              ∧ load_and_run_detector run render image = Raise e)
  ∧ (∀ image e, image ∈ take 1000 video →
       load_and_run_detector run render image = Raise e →
       ∃ image' e',
         video_detect run render shape video = InferenceError e'
         ∧ image' ∈ take 1000 video
         ∧ load_and_run_detector run render image' = Raise e')
  ∧ video_detect run render shape video
    = video_detect run render shape (take 1000 video).
Proof.
  unfold video_detect.
  pose proof (read_loop_spec video 0 [] None) as S.
  rewrite Nat.sub_0_r in S. split; [|split].
  - intros e.
    destruct (read_loop run render shape video 0 [] None)
      as [[arr [sz|]]|e']; [done|done|].
    intros [= <-]. apply S. lia.
  - intros image e Hin L.
    destruct (read_loop run render shape video 0 [] None) as [[arr sz]|e'].
    + destruct S as (added & _ & HF & _); [lia|].
      apply list_elem_of_lookup in Hin as [i Hi].
      destruct (Forall2_lookup_l _ _ _ _ _ HF Hi) as (w & _ & flag & L').
      congruence.
    + destruct S as (_ & image' & Hin' & L'); [lia|].
      by exists image', e'.
  - pose proof (read_loop_take video 0 [] None) as T.
    rewrite Nat.sub_0_r in T. rewrite T by lia. done.
Qed.

End VideoProperties.

(** ** [ImagePathUtils] *)

Section ImagePathProperties.
Import ImagePathUtils.
Variable splitext : string → string * string.
Variable lower : string → string.
Variable glob : string → bool → list string.

(** X21.  [find_image_files] keeps, in their order, exactly the strings whose
    lowered extension is one of the four image extensions; applying it
    again changes nothing, and [find_images] returns only such strings, all
    of them found by the glob. *)
Theorem find_image_files_keeps_image_names (strings : list string) :
  find_image_files splitext lower strings `sublist_of` strings
  ∧ (∀ s, s ∈ find_image_files splitext lower strings
          ↔ s ∈ strings ∧ lower (splitext s).2 ∈ image_extensions)
  ∧ find_image_files splitext lower (find_image_files splitext lower strings)
    = find_image_files splitext lower strings
  ∧ ∀ dir_name recursive s,
      s ∈ find_images splitext lower glob dir_name recursive →
      s ∈ glob dir_name recursive ∧ is_image_file splitext lower s = true.
Proof.
  unfold find_images, find_image_files. split; [apply sublist_filter|].
  split; [|split].
  - intros s. rewrite list_elem_of_filter. unfold is_image_file.
    rewrite bool_decide_spec. tauto.
  - by apply list_filter_filter_l.
  - intros dir_name recursive s [Hs Hin]%list_elem_of_filter.
    split; [done|]. by apply Is_true_true.
Qed.

End ImagePathProperties.

(** ** The further properties on concrete inputs *)

Section MoreWitnesses.
Import TFDetector Spec Example MoreExamples VideoDetect Trace.

Local Ltac backend_answers :=
  do 4 eexists; repeat split; reflexivity.

Local Ltac each_raw H :=
  cbv [raw_example animal_detection vehicle_detection] in H;
  repeat (apply elem_of_cons in H as [[= -> -> ->]|H]);
  [..|by apply elem_of_nil in H].

Lemma rounded_convert_coords_stays_in_box_witness :
  Rounded.rounding (1 # 33554432) Rounded.fixed_rounding
  ∧ valid_box (TfBox 0.12349 0.2 0.56788 0.5)
  ∧ ∃ x y width height,
      Rounded.__convert_coords Rounded.fixed_rounding
        (TfBox 0.12349 0.2 0.56788 0.5) = [x; y; width; height]
      ∧ (0 <= x ∧ x <= 0.2) ∧ (0 <= y ∧ y <= 0.12349)
      ∧ (0 <= width ∧ width <= 0.5 - 0.2 + (1 # 33554432))
      ∧ (0 <= height ∧ height <= 0.56788 - 0.12349 + (1 # 33554432))
      ∧ x + width <= 0.5 + (1 # 33554432)
      ∧ y + height <= 0.56788 + (1 # 33554432)
      ∧ x + width <= 1 + (1 # 33554432)
      ∧ y + height <= 1 + (1 # 33554432).
Proof.
  assert (V : valid_box (TfBox 0.12349 0.2 0.56788 0.5)).
  { unfold valid_box; cbn. repeat split; by vm_compute. }
  split; [exact fixed_rounding_rounds|]. split; [exact V|].
  exact (rounded_convert_coords_stays_in_box _ _ _ fixed_rounding_rounds V).
Defined.

Lemma raising_threshold_only_removes_witness :
  0.1 <= 0.95
  ∧ detections_of 0.95 raw_example `sublist_of` detections_of 0.1 raw_example
  ∧ max_conf_of 0.95 raw_example <= max_conf_of 0.1 raw_example
  ∧ animal_of 0.95 raw_example = animal_of 0.1 raw_example.
Proof.
  assert (L : 0.1 <= 0.95) by (by vm_compute).
  split; [exact L|]. exact (raising_threshold_only_removes 0.1 0.95 raw_example L).
Defined.

Lemma empty_batch_is_failure_witness :
  empty_batch_session 0%nat
    = Ok {| box_tensor_out := []; score_tensor_out := [];
            class_tensor_out := [] |}
  ∧ (@nil (list tf_box) = [] ∨ @nil (list Q) = [] ∨ @nil (list Z) = [])
  ∧ generate_detections_one_image empty_batch_session 0%nat 0%nat 0.1 =
      (<[ "failure" := PyStr FAILURE_TF_INFER ]>
         {[ "file" := PyImageId 0%nat ]}, 0%Z).
Proof.
  split; [reflexivity|]. split; [by left|].
  exact (empty_batch_is_failure empty_batch_session 0%nat 0%nat 0.1 _
           eq_refl (or_introl eq_refl)).
Defined.

Lemma mismatched_lengths_are_cut_witness :
  ragged_session 0%nat
    = Ok {| box_tensor_out := [[TfBox 0.1 0.2 0.4 0.5; TfBox 0 0 1 1]];
            score_tensor_out := [[0.92]];
            class_tensor_out := [[1%Z; 2%Z]] |}
  ∧ let n := 1%nat in
    generate_detections_one_image ragged_session 0%nat 0%nat 0.1
      = generate_detections_one_image
          (constant_session
             (zip3 (take n [TfBox 0.1 0.2 0.4 0.5; TfBox 0 0 1 1])
                (take n [0.92]) (take n [1%Z; 2%Z])))
          0%nat 0%nat 0.1
    ∧ ∃ dets,
        (generate_detections_one_image ragged_session 0%nat 0%nat 0.1).1
          !! "detections" = Some (PyDetections dets)
        ∧ (length dets ≤ n)%nat.
Proof.
  split; [reflexivity|].
  exact (mismatched_lengths_are_cut ragged_session 0%nat 0%nat 0.1 _
           [TfBox 0.1 0.2 0.4 0.5; TfBox 0 0 1 1] [0.92] [1%Z; 2%Z]
           eq_refl eq_refl eq_refl eq_refl).
Defined.

Lemma listed_detections_come_from_survivors_witness :
  backend_returns (constant_session raw_example) 0%nat raw_example
  ∧ ∃ dets,
      (generate_detections_one_image (constant_session raw_example)
         0%nat 0%nat 0.1).1 !! "detections" = Some (PyDetections dets)
      ∧ ∀ d, d ∈ dets →
          (∃ b s c, (b, s, c) ∈ raw_example ∧ c ≠ 3%Z ∧ 0.1 < s
                    ∧ d = detection_entry_of (b, s, c))
          ∧ truncate_float 0.1 CONF_DIGITS <= conf d.
Proof.
  assert (B : backend_returns (constant_session raw_example) 0%nat raw_example)
    by backend_answers.
  split; [exact B|].
  exact (proj1 (listed_detections_come_from_survivors
                  (constant_session raw_example) 0%nat 0%nat 0.1 raw_example B)).
Defined.

Lemma listed_boxes_convert_back_witness :
  backend_returns (constant_session raw_example) 0%nat raw_example
  ∧ ∃ dets,
      (generate_detections_one_image (constant_session raw_example)
         0%nat 0%nat 0.1).1 !! "detections" = Some (PyDetections dets)
      ∧ ∀ d, d ∈ dets →
          length (bbox d) = 4%nat
          ∧ ∃ back, convert_to_tf_coords (bbox d) = Ok back
                    ∧ length back = 4%nat.
Proof.
  assert (B : backend_returns (constant_session raw_example) 0%nat raw_example)
    by backend_answers.
  split; [exact B|].
  exact (listed_boxes_convert_back (constant_session raw_example)
           0%nat 0%nat 0.1 raw_example B).
Defined.

Lemma no_survivor_gives_empty_result_witness :
  backend_returns (constant_session raw_example) 0%nat raw_example
  ∧ (∀ b s c, (b, s, c) ∈ raw_example → c = 3%Z ∨ s <= 0.95)
  ∧ (generate_detections_one_image (constant_session raw_example)
       0%nat 0%nat 0.95).1 =
      <[ "detections" := PyDetections [] ]>
        (<[ "max_detection_conf" := PyFloat 0 ]>
           {[ "file" := PyImageId 0%nat ]}).
Proof.
  assert (B : backend_returns (constant_session raw_example) 0%nat raw_example)
    by backend_answers.
  assert (N : ∀ b s c, (b, s, c) ∈ raw_example → c = 3%Z ∨ s <= 0.95).
  { intros b s c Hin. each_raw Hin; [right; by vm_compute|by left]. }
  split; [exact B|]. split; [exact N|].
  exact (no_survivor_gives_empty_result (constant_session raw_example)
           0%nat 0%nat 0.95 raw_example B N).
Defined.

Lemma confidences_stay_in_unit_interval_witness :
  backend_returns (constant_session raw_example) 0%nat raw_example
  ∧ (∀ b s c, (b, s, c) ∈ raw_example → 0 <= s ∧ s <= 1)
  ∧ ∃ dets m,
      (generate_detections_one_image (constant_session raw_example)
         0%nat 0%nat 0.1).1 !! "detections" = Some (PyDetections dets)
      ∧ (generate_detections_one_image (constant_session raw_example)
           0%nat 0%nat 0.1).1 !! "max_detection_conf" = Some (PyFloat m)
      ∧ (0 <= m ∧ m <= 1)
      ∧ ∀ d, d ∈ dets → 0 <= conf d ∧ conf d <= 1.
Proof.
  assert (B : backend_returns (constant_session raw_example) 0%nat raw_example)
    by backend_answers.
  assert (U : ∀ b s c, (b, s, c) ∈ raw_example → 0 <= s ∧ s <= 1).
  { intros b s c Hin. each_raw Hin; split; by vm_compute. }
  split; [exact B|]. split; [exact U|].
  exact (confidences_stay_in_unit_interval (constant_session raw_example)
           0%nat 0%nat 0.1 raw_example B U).
Defined.

Lemma server_cycle_alerts_iff_class_1_witness :
  backend_returns flaky_session (keep_frame 1%nat "cam") raw_example
  ∧ server_loop flaky_session render_nothing keep_frame
      [ ("cam", 1%nat, 113%Z); ("cam", 0%nat, 0%Z) ] []
    = ([SendReply; ImShow 1%nat; Beep 2500 500], Quit).
Proof.
  assert (B : backend_returns flaky_session (keep_frame 1%nat "cam") raw_example)
    by backend_answers.
  split; [exact B|].
  exact (server_cycle_alerts_iff_class_1 flaky_session render_nothing
           keep_frame "cam" 1%nat 113%Z [ ("cam", 0%nat, 0%Z) ] []
           raw_example B).
Defined.

Lemma server_loop_healthy_run_witness :
  (∀ rpiName frame waitKey,
     (rpiName, frame, waitKey) ∈ [ ("cam", 1%nat, 0%Z); ("cam", 2%nat, 0%Z) ] →
     (∃ raw, backend_returns flaky_session (keep_frame frame rpiName) raw)
     ∧ Z.land waitKey 255 ≠ 113%Z)
  ∧ let out :=
      server_loop flaky_session render_nothing keep_frame
        [ ("cam", 1%nat, 0%Z); ("cam", 2%nat, 0%Z) ] [] in
    out.2 = AwaitFrame
    ∧ replies out.1 = 2%nat ∧ shown out.1 = 2%nat.
Proof.
  assert (H : ∀ rpiName frame waitKey,
     (rpiName, frame, waitKey) ∈ [ ("cam", 1%nat, 0%Z); ("cam", 2%nat, 0%Z) ] →
     (∃ raw, backend_returns flaky_session (keep_frame frame rpiName) raw)
     ∧ Z.land waitKey 255 ≠ 113%Z).
  { intros n f k Hin. each_raw Hin;
      (split; [exists raw_example; backend_answers|by vm_compute]). }
  split; [exact H|].
  exact (server_loop_healthy_run flaky_session render_nothing keep_frame
           [ ("cam", 1%nat, 0%Z); ("cam", 2%nat, 0%Z) ] H).
Defined.

Lemma video_detect_writes_first_1000_witness :
  video_detect flaky_session render_nothing vga_shape [1%nat; 2%nat]
    = Written (640%Z, 480%Z) [1%nat; 2%nat]
  ∧ length [1%nat; 2%nat] = (1000 `min` length [1%nat; 2%nat])%nat
  ∧ Forall2
      (λ image w, ∃ flag,
         load_and_run_detector flaky_session render_nothing image
         = Ok (w, flag))
      (take 1000 [1%nat; 2%nat]) [1%nat; 2%nat]
  ∧ ∃ l, last [1%nat; 2%nat] = Some l
         ∧ (640%Z, 480%Z) = ((vga_shape l).1.2, (vga_shape l).1.1).
Proof.
  split; [reflexivity|].
  exact (video_detect_writes_first_1000 flaky_session render_nothing vga_shape
           [1%nat; 2%nat] (640%Z, 480%Z) [1%nat; 2%nat] eq_refl).
Defined.

End MoreWitnesses.
